(** * A shallow embedding of the question-answering glue code

    The development follows the two Python files of the repository:
    [LLM_QA_CLI.py] (the text normalizer [simple_preprocess], the provider
    client [_call_groq_chat_raw] and the answer service [get_answer]) and
    [app.py] (the web server's own [call_groq_chat] and its [/ask] route).

    Python strings are modelled by [string]; a character is a code point
    below 256 (U+0000 to U+00FF), and the character tables below ([lower],
    [isspace], [isprintable]) are Python's tables on that range. *)

From Stdlib Require Import Bool Ascii String List ZArith NArith Lia.
From Stdlib Require Import DecimalString.
Import ListNotations.

Local Open Scope string_scope.
Local Open Scope bool_scope.

(** ** Characters *)

Module PyChar.

Definition ord (c : ascii) : N := N_of_ascii c.
Definition chr (n : N) : ascii := ascii_of_N n.

Definition between (lo hi n : N) : bool := (N.leb lo n) && (N.leb n hi).

(** [c.isupper()] : A-Z, and in the Latin-1 block U+00C0..U+00DE but the
    multiplication sign U+00D7. *)
Definition isupper (c : ascii) : bool :=
  let n := ord c in
  between 65 90 n || (between 192 222 n && negb (N.eqb n 215)).

(** [c.lower()] : every uppercase letter of the range has its lowercase form
    32 code points further; all other characters are left alone. *)
Definition lower (c : ascii) : ascii :=
  if isupper c then chr (ord c + 32) else c.

(** [c.isspace()], which is also what [\s] matches in a [str] pattern and
    what [str.strip()] removes. *)
Definition isspace (c : ascii) : bool :=
  let n := ord c in
  between 9 13 n || between 28 32 n || N.eqb n 133 || N.eqb n 160.

(** [c.isprintable()], used by [repr] of a string. *)
Definition isprintable (c : ascii) : bool :=
  let n := ord c in
  between 32 126 n || (between 161 255 n && negb (N.eqb n 173)).

Definition dquote : ascii := chr 34.
Definition squote : ascii := chr 39.
Definition backslash : ascii := chr 92.

(** [string.punctuation] *)
Definition punctuation : string :=
  String "!" (String dquote "#$%&'()*+,-./:;<=>?@[\]^_`{|}~").

Fixpoint mem (c : ascii) (s : string) : bool :=
  match s with
  | EmptyString => false
  | String d r => Ascii.eqb c d || mem c r
  end.

Definition ispunct (c : ascii) : bool := mem c punctuation.

End PyChar.

(** ** String methods used by the source *)

Module PyStr.

Fixpoint all_chars (p : ascii -> bool) (s : string) : bool :=
  match s with
  | EmptyString => true
  | String c r => p c && all_chars p r
  end.

Definition is_empty (s : string) : bool :=
  match s with EmptyString => true | String _ _ => false end.

(** [s.lower()] *)
Fixpoint lower (s : string) : string :=
  match s with
  | EmptyString => EmptyString
  | String c r => String (PyChar.lower c) (lower r)
  end.

(** [s.translate(str.maketrans('', '', deleted))] : the characters of
    [deleted] are dropped, the others kept. *)
Fixpoint translate_delete (deleted : string) (s : string) : string :=
  match s with
  | EmptyString => EmptyString
  | String c r =>
      if PyChar.mem c deleted then translate_delete deleted r
      else String c (translate_delete deleted r)
  end.

(** [re.sub(r"\s+", " ", s)] : every maximal run of whitespace becomes one
    space.  [in_run] tells that the previous character was whitespace, so
    that the space of the current run is already written. *)
Fixpoint sub_ws_from (in_run : bool) (s : string) : string :=
  match s with
  | EmptyString => EmptyString
  | String c r =>
      if PyChar.isspace c then
        if in_run then sub_ws_from true r
        else String " " (sub_ws_from true r)
      else String c (sub_ws_from false r)
  end.

Definition sub_ws (s : string) : string := sub_ws_from false s.

(** [s.lstrip()], [s.rstrip()], [s.strip()] *)
Fixpoint lstrip (s : string) : string :=
  match s with
  | EmptyString => EmptyString
  | String c r => if PyChar.isspace c then lstrip r else s
  end.

Fixpoint rstrip (s : string) : string :=
  match s with
  | EmptyString => EmptyString
  | String c r =>
      let r' := rstrip r in
      if PyChar.isspace c && is_empty r' then EmptyString else String c r'
  end.

Definition strip (s : string) : string := rstrip (lstrip s).

(** [s.split(sep)] for a separator of one character: one piece more than
    there are separators, empty pieces included. *)
Fixpoint split (sep : ascii) (s : string) : list string :=
  match s with
  | EmptyString => [EmptyString]
  | String c r =>
      if Ascii.eqb c sep then EmptyString :: split sep r
      else match split sep r with
           | t :: ts => String c t :: ts
           | [] => [String c EmptyString]
           end
  end.

(** [needle in s] for two strings *)
Fixpoint contains (needle s : string) : bool :=
  String.prefix needle s ||
  match s with
  | EmptyString => false
  | String _ r => contains needle r
  end.

(** [collapsed prev s] : every whitespace character of [s] is a space, no
    two spaces are adjacent, and [s] does not start with a space when
    [prev] is set. *)
Fixpoint collapsed (prev : bool) (s : string) : bool :=
  match s with
  | EmptyString => true
  | String c r =>
      if PyChar.isspace c
      then Ascii.eqb c " " && negb prev && collapsed true r
      else collapsed false r
  end.

End PyStr.

(** ** Python values

    The values the code handles are what [resp.json()] can return, what a
    caller can pass as [question], and the dictionaries the code builds.
    A dictionary keeps its insertion order and its keys are strings; a
    lookup takes the first binding of the key.  A float is carried by the
    text [repr] prints for it: the code never computes with one, it only
    prints it or tests it for zero. *)

#[warnings="-register-all"]
Inductive PyVal : Type :=
| PNone
| PBool (b : bool)
| PInt (z : Z)
| PFloat (printed : string)
| PStr (s : string)
| PList (items : list PyVal)
| PDict (bindings : list (string * PyVal)).

Module Py.

Definition string_eqb (a b : string) : bool := String.eqb a b.

Definition float_is_zero (printed : string) : bool :=
  string_eqb printed "0.0" || string_eqb printed "-0.0".

(** [bool(v)] *)
Definition truthy (v : PyVal) : bool :=
  match v with
  | PNone => false
  | PBool b => b
  | PInt z => negb (Z.eqb z 0)
  | PFloat f => negb (float_is_zero f)
  | PStr s => negb (PyStr.is_empty s)
  | PList l => match l with [] => false | _ :: _ => true end
  | PDict d => match d with [] => false | _ :: _ => true end
  end.

(** [a or b] *)
Definition or_ (a b : PyVal) : PyVal := if truthy a then a else b.

Definition isinstance_dict (v : PyVal) : bool :=
  match v with PDict _ => true | _ => false end.

Definition isinstance_list (v : PyVal) : bool :=
  match v with PList _ => true | _ => false end.

Definition isinstance_str (v : PyVal) : bool :=
  match v with PStr _ => true | _ => false end.

(** [v == key] for a string [key] *)
Definition eq_str (key : string) (v : PyVal) : bool :=
  match v with PStr s => string_eqb s key | _ => false end.

Fixpoint lookup (key : string) (d : list (string * PyVal)) : option PyVal :=
  match d with
  | [] => None
  | (k, v) :: r => if string_eqb k key then Some v else lookup key r
  end.

Definition has_key (key : string) (d : list (string * PyVal)) : bool :=
  match lookup key d with Some _ => true | None => false end.

(** *** [repr] and [str] *)

Definition hexdigit (n : N) : ascii :=
  if N.ltb n 10 then PyChar.chr (48 + n) else PyChar.chr (87 + n).

Definition one (c : ascii) : string := String c EmptyString.

Definition repr_char (quote c : ascii) : string :=
  if Ascii.eqb c quote || Ascii.eqb c PyChar.backslash
  then String PyChar.backslash (one c)
  else if N.eqb (PyChar.ord c) 9 then "\t"
  else if N.eqb (PyChar.ord c) 10 then "\n"
  else if N.eqb (PyChar.ord c) 13 then "\r"
  else if PyChar.isprintable c then one c
  else "\x" ++ one (hexdigit (PyChar.ord c / 16))
            ++ one (hexdigit (PyChar.ord c mod 16)).

Fixpoint repr_chars (quote : ascii) (s : string) : string :=
  match s with
  | EmptyString => EmptyString
  | String c r => repr_char quote c ++ repr_chars quote r
  end.

(** Single quotes, unless the string has a single quote and no double
    quote. *)
Definition repr_quote (s : string) : ascii :=
  if PyChar.mem PyChar.squote s && negb (PyChar.mem PyChar.dquote s)
  then PyChar.dquote else PyChar.squote.

Definition repr_str (s : string) : string :=
  let q := repr_quote s in
  String q (repr_chars q s ++ one q).

Definition repr_int (z : Z) : string := NilZero.string_of_int (Z.to_int z).

Fixpoint join (sep : string) (parts : list string) : string :=
  match parts with
  | [] => EmptyString
  | [p] => p
  | p :: r => p ++ sep ++ join sep r
  end.

Fixpoint repr (v : PyVal) : string :=
  match v with
  | PNone => "None"
  | PBool true => "True"
  | PBool false => "False"
  | PInt z => repr_int z
  | PFloat f => f
  | PStr s => repr_str s
  | PList l => "[" ++ join ", " (map repr l) ++ "]"
  | PDict d =>
      "{" ++ join ", "
               (map (fun kv => match kv with
                               | (k, x) => repr_str k ++ ": " ++ repr x
                               end) d)
          ++ "}"
  end.

(** [str(v)] *)
Definition str (v : PyVal) : string :=
  match v with PStr s => s | _ => repr v end.

End Py.

(** *** Container operations, which may raise

    The built-in failures below are the ones the source can meet when it
    probes a response of unknown shape; the code only ever catches them, so
    their messages are not modelled. *)

Inductive failure : Type :=
| AttributeError
| TypeError
| IndexError
| KeyError.

Inductive result (X A : Type) : Type :=
| Ok (a : A)
| Raise (x : X).
Arguments Ok {X A} a.
Arguments Raise {X A} x.

Module Access.

Definition E (A : Type) : Type := result failure A.

Definition bind {A B : Type} (m : E A) (k : A -> E B) : E B :=
  match m with
  | Ok a => k a
  | Raise x => Raise x
  end.

(** [try: body  except Exception: handler] around a computation that only
    probes values *)
Definition try_except {A : Type} (body : E A) (handler : failure -> E A)
  : E A :=
  match body with
  | Ok a => Ok a
  | Raise x => handler x
  end.

(** [key in v] *)
Definition contains (key : string) (v : PyVal) : E bool :=
  match v with
  | PDict d => Ok (Py.has_key key d)
  | PStr s => Ok (PyStr.contains key s)
  | PList l => Ok (existsb (Py.eq_str key) l)
  | PNone | PBool _ | PInt _ | PFloat _ => Raise TypeError
  end.

(** [v[key]] for a string [key] *)
Definition getitem (v : PyVal) (key : string) : E PyVal :=
  match v with
  | PDict d =>
      match Py.lookup key d with
      | Some x => Ok x
      | None => Raise KeyError
      end
  | _ => Raise TypeError
  end.

(** [v[0]] *)
Definition getitem0 (v : PyVal) : E PyVal :=
  match v with
  | PList (x :: _) => Ok x
  | PList [] => Raise IndexError
  | PStr (String c _) => Ok (PStr (Py.one c))
  | PStr EmptyString => Raise IndexError
  | PDict _ => Raise KeyError
  | PNone | PBool _ | PInt _ | PFloat _ => Raise TypeError
  end.

(** [v.get(key, default)] *)
Definition get (v : PyVal) (key : string) (default : PyVal) : E PyVal :=
  match v with
  | PDict d =>
      match Py.lookup key d with
      | Some x => Ok x
      | None => Ok default
      end
  | _ => Raise AttributeError
  end.

End Access.

Notation "x <~ m ;; k" := (Access.bind m (fun x => k))
  (at level 61, m at next level, right associativity).

(** ** The [requests] library, as the code sees it

    The outside world is a function from the POST that is sent to what comes
    back.  A response carries the verdict of [raise_for_status()] (the
    message of the [HTTPError] it raises, if it raises), the outcome of
    [json()] and its [text].  Every outbound call is appended to a log. *)

Module Requests.

Inductive exn_class : Type :=
| HTTPError          (* requests.exceptions.HTTPError *)
| RequestException   (* the other requests exceptions: timeout, connection *)
| RuntimeError
| OtherException.

Record Response : Type := mkResponse {
  raise_for_status : option string;
  json : result (exn_class * string) PyVal;
  text : string
}.

(** An exception with [str(e) = message]; an [HTTPError] has the response
    that caused it. *)
Record exn : Type := mkExn {
  cls : exn_class;
  message : string;
  response : option Response
}.

Record PostCall : Type := mkPost {
  post_url : string;
  post_headers : list (string * string);
  post_json : PyVal;
  post_timeout : Z
}.

Definition Network : Type := PostCall -> result exn Response.

Definition M (A : Type) : Type :=
  list PostCall -> result exn A * list PostCall.

Definition ret {A : Type} (a : A) : M A := fun log => (Ok a, log).

Definition raise {A : Type} (e : exn) : M A := fun log => (Raise e, log).

Definition bind {A B : Type} (m : M A) (k : A -> M B) : M B :=
  fun log =>
    match m log with
    | (Ok a, log') => k a log'
    | (Raise e, log') => (Raise e, log')
    end.

(** [try: body  except C1: h1  except C2: h2 ...] : the first clause whose
    class test accepts the exception handles it; an exception raised by a
    handler is not caught by the clauses that follow. *)
Fixpoint dispatch {A : Type} (clauses : list ((exn -> bool) * (exn -> M A)))
    (e : exn) : M A :=
  match clauses with
  | [] => raise e
  | (handles, handler) :: rest =>
      if handles e then handler e else dispatch rest e
  end.

Definition try_except {A : Type} (body : M A)
    (clauses : list ((exn -> bool) * (exn -> M A))) : M A :=
  fun log =>
    match body log with
    | (Ok a, log') => (Ok a, log')
    | (Raise e, log') => dispatch clauses e log'
    end.

(** [requests.post(url, headers=..., json=..., timeout=...)] *)
Definition post (network : Network) (call : PostCall) : M Response :=
  fun log => (network call, (log ++ [call])%list).

(** [resp.raise_for_status()] *)
Definition check_status (resp : Response) : M unit :=
  match raise_for_status resp with
  | Some msg => raise (mkExn HTTPError msg (Some resp))
  | None => ret tt
  end.

(** [resp.json()] *)
Definition parse_json (resp : Response) : M PyVal :=
  match json resp with
  | Ok v => ret v
  | Raise (c, msg) => raise (mkExn c msg None)
  end.

Definition is_HTTPError (e : exn) : bool :=
  match cls e with HTTPError => true | _ => false end.

Definition is_Exception (e : exn) : bool := true.

(** What a call does from an empty log: its outcome and the calls sent. *)
Definition run {A : Type} (m : M A) : result exn A * list PostCall := m [].

End Requests.

Notation "x <- m ;; k" := (Requests.bind m (fun x => k))
  (at level 61, m at next level, right associativity).

(** ** LLM_QA_CLI.py *)

Module LLM_QA_CLI.

Import Requests.

Section Service.

(** [os.environ.get] and the network *)
Variable environ : string -> option string.
Variable network : Network.

Definition GROQ_API_KEY : option string := environ "GROQ_API_KEY".

Definition GROQ_MODEL : string :=
  match environ "GROQ_MODEL" with
  | Some m => m
  | None => "groq-llama3-13b"
  end.

Definition GROQ_OPENAI_BASE : string :=
  match environ "GROQ_OPENAI_BASE" with
  | Some b => b
  | None => "https://api.groq.com/openai/v1"
  end.

Definition CHAT_COMPLETIONS_URL : string :=
  GROQ_OPENAI_BASE ++ "/chat/completions".

(** [f"{GROQ_API_KEY}"] *)
Definition format_key (key : option string) : string :=
  match key with
  | Some k => k
  | None => "None"
  end.

Definition key_is_set (key : option string) : bool :=
  match key with
  | Some k => negb (PyStr.is_empty k)
  | None => false
  end.

Definition simple_preprocess (text : PyVal) : string * list string :=
  let text := Py.str text in
  let cleaned := PyStr.lower text in
  let cleaned := PyStr.translate_delete PyChar.punctuation cleaned in
  let cleaned := PyStr.strip (PyStr.sub_ws cleaned) in
  let tokens :=
    if PyStr.is_empty cleaned then [] else PyStr.split " " cleaned in
  (cleaned, tokens).

Definition _call_groq_chat_raw (question : PyVal) (model : string)
    (timeout : Z) : M PyVal :=
  if negb (key_is_set GROQ_API_KEY) then
    raise (mkExn RuntimeError
             "GROQ_API_KEY is not set in environment variables." None)
  else
    let headers :=
      [("Authorization", "Bearer " ++ format_key GROQ_API_KEY);
       ("Content-Type", "application/json")] in
    let payload :=
      PDict [("model", PStr model);
             ("messages",
              PList [PDict [("role", PStr "system");
                            ("content", PStr "You are a helpful assistant.")];
                     PDict [("role", PStr "user");
                            ("content", question)]]);
             ("temperature", PFloat "0.2");
             ("max_tokens", PInt 512)] in
    resp <- post network (mkPost CHAT_COMPLETIONS_URL headers payload timeout) ;;
    _ <- check_status resp ;;
    parse_json resp.

(** The defensive extraction of the assistant text, with its own
    [try ... except Exception]. *)
Definition assistant_text_body (raw : PyVal) : Access.E PyVal :=
  choices <~ Access.get raw "choices" (PList []) ;;
  if Py.truthy choices && Py.isinstance_list choices then
    c0 <~ Access.getitem0 choices ;;
    let first := Py.or_ c0 (PDict []) in
    message_shape <~
      (has <~ Access.contains "message" first ;;
       if has then
         m <~ Access.getitem first "message" ;; Ok (Py.isinstance_dict m)
       else Ok false) ;;
    if message_shape then
      m <~ Access.getitem first "message" ;;
      c <~ Access.get m "content" (PStr EmptyString) ;;
      Ok (Py.or_ c (PStr EmptyString))
    else
      text_shape <~ Access.contains "text" first ;;
      if text_shape then
        t <~ Access.get first "text" (PStr EmptyString) ;;
        Ok (Py.or_ t (PStr EmptyString))
      else Ok (PStr (Py.str first))
  else Ok (PStr EmptyString).

Definition assistant_text (raw : PyVal) : Access.E PyVal :=
  Access.try_except (assistant_text_body raw)
    (fun _ => Ok (PStr EmptyString)).

(** The value of [assistant_text] after the [try] statement; the statement
    never raises (see [assistant_text_never_raises]). *)
Definition assistant_text_value (raw : PyVal) : PyVal :=
  match assistant_text raw with
  | Ok v => v
  | Raise _ => PStr EmptyString
  end.

Definition empty_question : PyVal :=
  PDict [("ok", PBool false); ("answer", PStr EmptyString);
         ("raw", PNone); ("error", PStr "Empty question.")].

Definition get_answer (question : PyVal) (model : string) (timeout : Z)
  : M PyVal :=
  try_except
    (if negb (Py.truthy question)
        || PyStr.is_empty (PyStr.strip (Py.str question))
     then ret empty_question
     else
       let '(cleaned, tokens) := simple_preprocess question in
       let prompt := question in
       raw <- _call_groq_chat_raw prompt model timeout ;;
       ret (PDict [("ok", PBool true);
                   ("answer", assistant_text_value raw);
                   ("raw", raw);
                   ("error", PNone);
                   ("preprocessed",
                    PDict [("cleaned", PStr cleaned);
                           ("tokens", PList (map PStr tokens))])]))
    [ (is_HTTPError,
       fun he =>
         let body :=
           match response he with
           | Some r =>
               match json r with
               | Ok v => v
               | Raise _ => PStr (text r)
               end
           | None => PStr (message he)
           end in
         ret (PDict [("ok", PBool false); ("answer", PStr EmptyString);
                     ("raw", body);
                     ("error",
                      PStr ("Provider HTTP error: " ++ message he))]));
      (is_Exception,
       fun e =>
         ret (PDict [("ok", PBool false); ("answer", PStr EmptyString);
                     ("raw", PNone); ("error", PStr (message e))])) ].

End Service.

End LLM_QA_CLI.

(** ** app.py *)

Module App.

Import Requests.

Section Server.

Variable environ : string -> option string.
Variable network : Network.

Definition GROQ_API_KEY : option string := environ "GROQ_API_KEY".

Definition GROQ_MODEL : string :=
  match environ "GROQ_MODEL" with
  | Some m => m
  | None => "groq-llama3-13b"
  end.

(** The check made when the module is imported *)
Definition startup : result exn unit :=
  if negb (LLM_QA_CLI.key_is_set GROQ_API_KEY) then
    Raise (mkExn RuntimeError
             "GROQ_API_KEY environment variable is not set. See README or Render env settings."
             None)
  else Ok tt.

Definition GROQ_OPENAI_BASE : string := "https://api.groq.com/openai/v1".

Definition CHAT_COMPLETIONS_URL : string :=
  GROQ_OPENAI_BASE ++ "/chat/completions".

(** [data.get('choices', [])[0].get('message', {}).get('content', '')] *)
Definition assistant_text_body (data : PyVal) : Access.E PyVal :=
  choices <~ Access.get data "choices" (PList []) ;;
  first <~ Access.getitem0 choices ;;
  message <~ Access.get first "message" (PDict []) ;;
  Access.get message "content" (PStr EmptyString).

Definition assistant_text (data : PyVal) : Access.E PyVal :=
  Access.try_except (assistant_text_body data)
    (fun _ => Ok (PStr EmptyString)).

Definition assistant_text_value (data : PyVal) : PyVal :=
  match assistant_text data with
  | Ok v => v
  | Raise _ => PStr EmptyString
  end.

Definition call_groq_chat (question : PyVal) (model : string) (timeout : Z)
  : M PyVal :=
  let headers :=
    [("Authorization", "Bearer " ++ LLM_QA_CLI.format_key GROQ_API_KEY);
     ("Content-Type", "application/json")] in
  let payload :=
    PDict [("model", PStr model);
           ("messages",
            PList [PDict [("role", PStr "system");
                          ("content", PStr "You are a helpful assistant.")];
                   PDict [("role", PStr "user");
                          ("content", question)]]);
           ("temperature", PFloat "0.2");
           ("max_tokens", PInt 512)] in
  resp <- post network (mkPost CHAT_COMPLETIONS_URL headers payload timeout) ;;
  _ <- check_status resp ;;
  data <- parse_json resp ;;
  ret (PDict [("raw", data); ("answer", assistant_text_value data)]).

End Server.

End App.

(** The [answer] entry of a result dictionary *)
Definition answer_of (r : result Requests.exn PyVal) : option PyVal :=
  match r with
  | Ok (PDict d) => Py.lookup "answer" d
  | _ => None
  end.

(** ** Vocabulary of the properties *)

Module Spec.

Import Requests.

(** The text normalizer's cleaned string, as one expression *)
Definition cleaned_of (text : string) : string :=
  PyStr.strip
    (PyStr.sub_ws
       (PyStr.translate_delete PyChar.punctuation (PyStr.lower text))).


(** The first choice of a response: the first element of the list under
    [choices]. *)
Definition first_choice (raw : PyVal) : option PyVal :=
  match raw with
  | PDict d =>
      match Py.lookup "choices" d with
      | Some (PList (c :: _)) => Some c
      | _ => None
      end
  | _ => None
  end.

(** The message-based shape: a mapping with a [message] field that is a
    mapping. *)
Definition message_shape (c : PyVal) : bool :=
  match c with
  | PDict d =>
      match Py.lookup "message" d with
      | Some (PDict _) => true
      | _ => false
      end
  | _ => false
  end.

(** The [content] field of the message of a first choice of that shape,
    when there is one *)
Definition content_field (c : PyVal) : option PyVal :=
  match c with
  | PDict d =>
      match Py.lookup "message" d with
      | Some (PDict m) => Py.lookup "content" m
      | _ => None
      end
  | _ => None
  end.

(** The legacy text-based shape: a mapping with a [text] field. *)
Definition text_shape (c : PyVal) : bool :=
  match c with
  | PDict d => Py.has_key "text" d
  | _ => false
  end.

Section Calls.

Variable environ : string -> option string.

(** The one POST that the provider client of [LLM_QA_CLI.py] sends. *)
Definition the_call (key : string) (question : PyVal) (model : string)
    (timeout : Z) : PostCall :=
  mkPost (LLM_QA_CLI.CHAT_COMPLETIONS_URL environ)
    [("Authorization", "Bearer " ++ key);
     ("Content-Type", "application/json")]
    (PDict [("model", PStr model);
            ("messages",
             PList [PDict [("role", PStr "system");
                           ("content", PStr "You are a helpful assistant.")];
                    PDict [("role", PStr "user");
                           ("content", question)]]);
            ("temperature", PFloat "0.2");
            ("max_tokens", PInt 512)])
    timeout.

End Calls.

(** What the provider client returns or raises, from what came back. *)
Definition outcome_of (back : result exn Response) : result exn PyVal :=
  match back with
  | Raise e => Raise e
  | Ok resp =>
      match raise_for_status resp with
      | Some msg => Raise (mkExn HTTPError msg (Some resp))
      | None =>
          match json resp with
          | Ok v => Ok v
          | Raise (c, msg) => Raise (mkExn c msg None)
          end
      end
  end.

(** The dictionary [get_answer] builds from the outcome of the provider
    client. *)
Definition packaged (question : PyVal) (out : result exn PyVal) : PyVal :=
  match out with
  | Ok raw =>
      PDict [("ok", PBool true);
             ("answer", LLM_QA_CLI.assistant_text_value raw);
             ("raw", raw);
             ("error", PNone);
             ("preprocessed",
              PDict [("cleaned",
                      PStr (fst (LLM_QA_CLI.simple_preprocess question)));
                     ("tokens",
                      PList (map PStr
                               (snd (LLM_QA_CLI.simple_preprocess
                                       question))))])]
  | Raise e =>
      if is_HTTPError e then
        PDict [("ok", PBool false); ("answer", PStr EmptyString);
               ("raw",
                match response e with
                | Some r =>
                    match json r with
                    | Ok v => v
                    | Raise _ => PStr (text r)
                    end
                | None => PStr (message e)
                end);
               ("error", PStr ("Provider HTTP error: " ++ message e))]
      else
        PDict [("ok", PBool false); ("answer", PStr EmptyString);
               ("raw", PNone); ("error", PStr (message e))]
  end.

End Spec.

(** ** Sample inputs *)

Module Sample.

Import Requests.

Definition environ (name : string) : option string :=
  if String.eqb name "GROQ_API_KEY" then Some "gsk_test" else None.

Definition answers_with (v : PyVal) : Network :=
  fun _ => Ok (mkResponse None (Ok v) EmptyString).

Definition too_many_requests : Response :=
  mkResponse
    (Some "429 Client Error: Too Many Requests for url: https://api.groq.com/openai/v1/chat/completions")
    (Raise (OtherException, "Expecting value: line 1 column 1 (char 0)"))
    "Too Many Requests".

Definition fails_with (resp : Response) : Network := fun _ => Ok resp.

Definition answer_42 : PyVal :=
  PDict [("choices",
          PList [PDict [("message", PDict [("content", PStr "42")])]])].

Definition legacy_answer : PyVal :=
  PDict [("choices", PList [PDict [("text", PStr "legacy-answer")]])].

Definition delta_answer : PyVal :=
  PDict [("choices",
          PList [PDict [("delta", PDict [("content", PStr "hi")])]])].

Definition null_content : PyVal :=
  PDict [("choices",
          PList [PDict [("message", PDict [("content", PNone)])]])].

Definition zero_content : PyVal :=
  PDict [("choices",
          PList [PDict [("message", PDict [("content", PInt 0)])]])].

End Sample.

(** Case analysis over the 256 characters *)
Ltac by_table c := destruct c as [[] [] [] [] [] [] [] []]; reflexivity.


(** ** The status of a response

    [raise_for_status()] is a method of the [requests] library: it raises
    [HTTPError] for the statuses 400 to 599 (app.py says so beside its
    call: 4xx/5xx), with the message built below, and passes every other
    status. *)

Module Http.

Import Requests.









End Http.

(** ** The text normalizer beyond U+00FF

    Here a string is the list of its code points.  The tables are Python's
    on the code points this module covers: U+0000 to U+00FF, as in
    [PyChar], and the mathematical bold letters U+1D400 to U+1D433
    (capital A to Z, then small a to z), which [lower()] leaves as they
    are and which are neither whitespace nor punctuation.  A text with
    another code point is outside the model: [simple_preprocess] answers
    [None] for it. *)

Module Wide.

Definition covered (n : N) : bool :=
  N.leb n 255 || PyChar.between 0x1D400 0x1D433 n.

(** [c.isupper()] *)
Definition isupper (n : N) : bool :=
  if N.leb n 255 then PyChar.isupper (PyChar.chr n)
  else PyChar.between 0x1D400 0x1D419 n.

(** [c.lower()] *)
Definition lower_char (n : N) : N :=
  if N.leb n 255 then PyChar.ord (PyChar.lower (PyChar.chr n)) else n.

(** [c.isspace()] *)
Definition isspace (n : N) : bool :=
  if N.leb n 255 then PyChar.isspace (PyChar.chr n) else false.

(** [c in string.punctuation] *)
Definition ispunct (n : N) : bool :=
  if N.leb n 255 then PyChar.ispunct (PyChar.chr n) else false.

Definition space : N := 32.

(** [s.lower()] *)
Definition lower (s : list N) : list N := map lower_char s.

(** [s.translate(str.maketrans('', '', string.punctuation))] *)
Definition delete_punctuation (s : list N) : list N :=
  filter (fun c => negb (ispunct c)) s.

(** [re.sub(r"\s+", " ", s)] *)
Fixpoint sub_ws_from (in_run : bool) (s : list N) : list N :=
  match s with
  | [] => []
  | c :: r =>
      if isspace c then
        if in_run then sub_ws_from true r
        else space :: sub_ws_from true r
      else c :: sub_ws_from false r
  end.

Definition sub_ws (s : list N) : list N := sub_ws_from false s.

(** [s.strip()] *)
Fixpoint lstrip (s : list N) : list N :=
  match s with
  | [] => []
  | c :: r => if isspace c then lstrip r else s
  end.

Fixpoint rstrip (s : list N) : list N :=
  match s with
  | [] => []
  | c :: r =>
      match rstrip r with
      | [] => if isspace c then [] else [c]
      | r' => c :: r'
      end
  end.

Definition strip (s : list N) : list N := rstrip (lstrip s).

(** [s.split(sep)] *)
Fixpoint split (sep : N) (s : list N) : list (list N) :=
  match s with
  | [] => [[]]
  | c :: r =>
      if N.eqb c sep then [] :: split sep r
      else match split sep r with
           | t :: ts => (c :: t) :: ts
           | [] => [[c]]
           end
  end.

Definition simple_preprocess (text : list N)
  : option (list N * list (list N)) :=
  if forallb covered text then
    let cleaned := lower text in
    let cleaned := delete_punctuation cleaned in
    let cleaned := strip (sub_ws cleaned) in
    let tokens :=
      match cleaned with
      | [] => []
      | _ :: _ => split space cleaned
      end in
    Some (cleaned, tokens)
  else None.

(** A character as the tokens keep them: no punctuation, its own lowercase
    form, and no uppercase letter when it is below U+0100 *)
Definition token_char (c : N) : bool :=
  negb (ispunct c)
  && N.eqb (lower_char c) c
  && (negb (N.leb c 255) || negb (isupper c)).

End Wide.

(** ** app.py: the routes *)

Module AppRoutes.

Import Requests.

(** What a view gives back: the value passed to [jsonify] with the status
    code, or a built-in exception raised outside the [try] of the view,
    which no clause of the view catches. *)
Inductive view : Type :=
| Responds (body : PyVal) (status : Z)
| Escapes (f : failure).

Definition type_name (v : PyVal) : string :=
  match v with
  | PNone => "NoneType"
  | PBool _ => "bool"
  | PInt _ => "int"
  | PFloat _ => "float"
  | PStr _ => "str"
  | PList _ => "list"
  | PDict _ => "dict"
  end.

(** [v.get(key, default)] inside a [try]: on a value without [get] the
    [AttributeError] has the message Python gives it. *)
Definition get_or_raise (v : PyVal) (key : string) (default : PyVal)
  : M PyVal :=
  match Access.get v key default with
  | Ok x => ret x
  | Raise _ =>
      raise (mkExn OtherException
               ("'" ++ type_name v ++ "' object has no attribute 'get'")
               None)
  end.

(** [except requests.exceptions.RequestException], which [HTTPError]
    inherits from *)
Definition is_RequestException (e : exn) : bool :=
  match cls e with
  | HTTPError | RequestException => true
  | RuntimeError | OtherException => false
  end.

Section Routes.

Variable environ : string -> option string.
Variable network : Network.

(** [ask()], on the value [request.get_json(force=True, silent=True)]
    returned ([None] when the body is not JSON) *)
Definition ask (body : PyVal) : M view :=
  match (if negb (Py.truthy body) then Ok true
         else has <~ Access.contains "question" body ;; Ok (negb has)) with
  | Raise f => ret (Escapes f)
  | Ok true =>
      ret (Responds
             (PDict [("ok", PBool false);
                     ("error", PStr "Missing 'question' in request body.")])
             400)
  | Ok false =>
      match Access.getitem body "question" with
      | Raise f => ret (Escapes f)
      | Ok question =>
          try_except
            (groq_resp <- App.call_groq_chat environ network question
                            (App.GROQ_MODEL environ) 30 ;;
             answer <- get_or_raise groq_resp "answer" (PStr EmptyString) ;;
             ret (Responds
                    (PDict [("ok", PBool true);
                            ("answer", answer);
                            ("meta",
                             PDict [("model",
                                     PStr (App.GROQ_MODEL environ))])])
                    200))
            [ (is_RequestException,
               fun e =>
                 ret (Responds
                        (PDict [("ok", PBool false);
                                ("error", PStr "API request failed");
                                ("details", PStr (message e))])
                        502));
              (is_Exception,
               fun e =>
                 ret (Responds
                        (PDict [("ok", PBool false);
                                ("error", PStr "Internal server error");
                                ("details", PStr (message e))])
                        500)) ]
      end
  end.

(** [health()] *)
Definition health : view :=
  Responds (PDict [("ok", PBool true); ("status", PStr "healthy")]) 200.

End Routes.

End AppRoutes.

(** ** LLM_QA_CLI.py: the interactive loop

    The keyboard is the list of what the successive calls of [input()]
    meet: a line, or an interrupt; when the list is used up, the end of the
    input, on which [input()] raises [EOFError].  What is written is the
    list of the writes that standard output took, one event each: [print]
    writes each of its arguments, the separators and the end of line one
    after the other.  A write can fail (the encoding of standard output
    cannot take the text, or the stream is closed): [stdout_ok] tells,
    from what is already written, whether the next write succeeds; a
    failed write raises and writes nothing.  The banner has a character
    outside the range of the strings of this model, so its text is an
    event of its own.  [json.dumps(obj, indent=2)] is a function of the
    standard library, taken as it comes: [None] stands for a call that
    raises. *)

Module Cli.

Import Requests.

Inductive keyboard : Type :=
| Line (s : string)
| CtrlC.

Inductive output : Type :=
| WriteBanner
| Prompt (s : string)
| Write (s : string).

(** What can go wrong while a result is printed: a failed access, or a
    failed write ([UnicodeEncodeError], [OSError]) *)
Inductive crash : Type :=
| Builtin (f : failure)
| WriteError.

Inductive ending : Type :=
| Returned                      (* the loop was left by [break] *)
| Exit (code : Z)               (* [sys.exit(code)] *)
| RaisedEOFError                (* [input()] met the end of the input *)
| RaisedCrash (c : crash)       (* an exception of the loop itself *)
| RaisedExn (e : exn).          (* an exception of [get_answer] *)

Definition nl : string := String (PyChar.chr 10) EmptyString.

(** Printing, with its failures *)
Definition P (A : Type) : Type :=
  list output -> result crash A * list output.

Definition pret {A : Type} (a : A) : P A := fun out => (Ok a, out).

Definition pbind {A B : Type} (m : P A) (k : A -> P B) : P B :=
  fun out =>
    match m out with
    | (Ok a, out') => k a out'
    | (Raise c, out') => (Raise c, out')
    end.

Definition access {A : Type} (e : Access.E A) : P A :=
  fun out =>
    match e with
    | Ok a => (Ok a, out)
    | Raise f => (Raise (Builtin f), out)
    end.

(** [try: body  except Exception: handler] *)
Definition ptry {A : Type} (body : P A) (handler : P A) : P A :=
  fun out =>
    match body out with
    | (Ok a, out') => (Ok a, out')
    | (Raise _, out') => handler out'
    end.

(** [len(v)] *)
Definition len (v : PyVal) : Access.E Z :=
  match v with
  | PList l => Ok (Z.of_nat (List.length l))
  | PStr s => Ok (Z.of_nat (String.length s))
  | PDict d => Ok (Z.of_nat (List.length d))
  | PNone | PBool _ | PInt _ | PFloat _ => Raise TypeError
  end.

(** [s[:2000]] *)
Definition first_2000 (s : string) : string := String.substring 0 2000 s.

Definition is_quit (question : string) : bool :=
  let q := PyStr.lower question in
  String.eqb q "quit" || String.eqb q "exit".

Section Loop.

Variable environ : string -> option string.
Variable network : Network.
Variable dumps_indent_2 : PyVal -> option string.
Variable stdout_ok : list output -> output -> bool.

(** One write to standard output *)
Definition emit (o : output) : P unit :=
  fun out =>
    if stdout_ok out o then (Ok tt, (out ++ [o])%list)
    else (Raise WriteError, out).

(** [print(s)] *)
Definition print (s : string) : P unit :=
  pbind (emit (Write s)) (fun _ => emit (Write nl)).

(** [print(a, b)] *)
Definition print2 (a b : string) : P unit :=
  pbind (emit (Write a)) (fun _ =>
  pbind (emit (Write " ")) (fun _ =>
  pbind (emit (Write b)) (fun _ => emit (Write nl)))).

(** [print] of the banner *)
Definition print_banner : P unit :=
  pbind (emit WriteBanner) (fun _ => emit (Write nl)).

(** What the loop prints for one result of [get_answer] *)
Definition report (result : PyVal) : P unit :=
  pbind (access (Access.get result "ok" PNone)) (fun ok =>
  if Py.truthy ok then
    pbind (print (nl ++ "Answer:" ++ nl)) (fun _ =>
    pbind (access (Access.get result "answer" (PStr "(no answer)")))
      (fun answer =>
    pbind (print (Py.str answer)) (fun _ =>
    pbind (access (Access.get result "preprocessed" PNone)) (fun meta =>
    if Py.truthy meta then
      pbind (access (Access.get meta "tokens" (PList []))) (fun tokens =>
      pbind (access (len tokens)) (fun n =>
      print (nl ++ "[preprocessing: " ++ Py.repr_int n ++ " tokens]")))
    else pret tt))))
  else
    pbind (access (Access.get result "error" PNone)) (fun error =>
    pbind (print2 (nl ++ "Error:") (Py.str error)) (fun _ =>
    pbind (access (Access.get result "raw" PNone)) (fun raw =>
    if Py.truthy raw then
      pbind (print (nl ++ "Raw provider response (truncated):")) (fun _ =>
      ptry
        (match dumps_indent_2
                 (if Py.isinstance_dict raw then raw
                  else PDict [("raw", PStr (Py.str raw))]) with
         | Some s => print (first_2000 s)
         | None => access (Raise TypeError)
         end)
        (print (first_2000 (Py.str raw))))
    else pret tt)))).

(** How the function ends after a last print *)
Definition finish (last : P unit) (e : ending) (out : list output)
    (log : list PostCall) : ending * list output * list PostCall :=
  match last out with
  | (Ok _, out') => (e, out', log)
  | (Raise c, out') => (RaisedCrash c, out', log)
  end.

(** The [while True] loop, from what is already written and sent *)
Fixpoint loop (inputs : list keyboard) (out : list output)
    (log : list PostCall) : ending * list output * list PostCall :=
  match emit (Prompt (nl ++ "> ")) out with
  | (Raise c, out) => (RaisedCrash c, out, log)
  | (Ok _, out) =>
      match inputs with
      | [] => (RaisedEOFError, out, log)
      | CtrlC :: _ =>
          finish (print (nl ++ "Interrupted. Goodbye.")) (Exit 0) out log
      | Line l :: rest =>
          let question := PyStr.strip l in
          if PyStr.is_empty question then
            match print
                    "Please type a non-empty question (or 'quit' to exit)."
                    out with
            | (Raise c, out') => (RaisedCrash c, out', log)
            | (Ok _, out') => loop rest out' log
            end
          else if is_quit question then
            finish (print "Goodbye.") Returned out log
          else
            match LLM_QA_CLI.get_answer environ network (PStr question)
                    (LLM_QA_CLI.GROQ_MODEL environ) 30 log with
            | (Raise e, log') => (RaisedExn e, out, log')
            | (Ok result, log') =>
                match report result out with
                | (Raise c, out') => (RaisedCrash c, out', log')
                | (Ok _, out') => loop rest out' log'
                end
            end
      end
  end.

Definition _interactive_cli (inputs : list keyboard)
  : ending * list output * list PostCall :=
  match print_banner [] with
  | (Raise c, out) => (RaisedCrash c, out, [])
  | (Ok _, out) => loop inputs out []
  end.

End Loop.

End Cli.

(** ** Vocabulary of the further properties *)

Module Words.

(** A token as one expects it: not empty, without whitespace *)
Definition token_ok (t : string) : bool :=
  negb (PyStr.is_empty t)
  && PyStr.all_chars (fun c => negb (PyChar.isspace c)) t.

(** The questions the interactive loop asks the answer service, from what
    is typed: the stripped lines that are not empty, up to the first
    line that reads quit or exit, the first interrupt or the end. *)
Fixpoint asked (inputs : list Cli.keyboard) : list string :=
  match inputs with
  | [] => []
  | Cli.CtrlC :: _ => []
  | Cli.Line l :: rest =>
      let question := PyStr.strip l in
      if PyStr.is_empty question then asked rest
      else if Cli.is_quit question then []
      else question :: asked rest
  end.

(** The POST of the web server's client *)
Definition web_call (environ : string -> option string) (question : PyVal)
    (model : string) (timeout : Z) : Requests.PostCall :=
  Requests.mkPost "https://api.groq.com/openai/v1/chat/completions"
    [("Authorization",
      "Bearer " ++ LLM_QA_CLI.format_key (environ "GROQ_API_KEY"));
     ("Content-Type", "application/json")]
    (PDict [("model", PStr model);
            ("messages",
             PList [PDict [("role", PStr "system");
                           ("content", PStr "You are a helpful assistant.")];
                    PDict [("role", PStr "user");
                           ("content", question)]]);
            ("temperature", PFloat "0.2");
            ("max_tokens", PInt 512)])
    timeout.

(** What [ask] answers from the outcome of the web server's client *)
Definition answered (environ : string -> option string)
    (out : result Requests.exn PyVal) : AppRoutes.view :=
  match out with
  | Ok data =>
      AppRoutes.Responds
        (PDict [("ok", PBool true);
                ("answer", App.assistant_text_value data);
                ("meta", PDict [("model", PStr (App.GROQ_MODEL environ))])])
        200
  | Raise e =>
      if AppRoutes.is_RequestException e then
        AppRoutes.Responds
          (PDict [("ok", PBool false);
                  ("error", PStr "API request failed");
                  ("details", PStr (Requests.message e))])
          502
      else
        AppRoutes.Responds
          (PDict [("ok", PBool false);
                  ("error", PStr "Internal server error");
                  ("details", PStr (Requests.message e))])
          500
  end.

(** The calls the interactive loop sends: those of [get_answer] for the
    questions asked, in order. *)
Definition sent (environ : string -> option string)
    (network : Requests.Network) (inputs : list Cli.keyboard)
  : list Requests.PostCall :=
  concat
    (map (fun q =>
            snd (Requests.run
                   (LLM_QA_CLI.get_answer environ network (PStr q)
                      (LLM_QA_CLI.GROQ_MODEL environ) 30)))
       (asked inputs)).

(** Standard output takes every write. *)
Definition always_writes (stdout_ok : list Cli.output -> Cli.output -> bool)
  : Prop :=
  forall (written : list Cli.output) (o : Cli.output),
    stdout_ok written o = true.

(** A printing that can only fail by a write, and does not fail when
    every write succeeds *)
Definition fails_by_write_only
    (stdout_ok : list Cli.output -> Cli.output -> bool) (m : Cli.P unit)
  : Prop :=
  forall out,
    exists r out',
      m out = (r, out')
      /\ (r = Ok tt \/ r = Raise Cli.WriteError)
      /\ (always_writes stdout_ok -> r = Ok tt).

End Words.

(** Case analysis over the writes of a printing *)
Ltac split_writes ok :=
  repeat match goal with
         | |- context [ok ?h ?o] =>
             let E := fresh "E" in
             destruct (ok h o) eqn:E; cbn
         end.

Ltac settle_writes ok :=
  eexists _, _; split; [reflexivity |];
  split; [auto |];
  try (intros Hall;
       repeat match goal with
              | E : ok ?h ?o = false |- _ =>
                  rewrite (Hall h o) in E; discriminate E
              end;
       reflexivity).

(** * Properties *)

Import Requests.

(** ** The model on the inputs of the specification *)

Example punctuation_codes :
  map PyChar.ord (list_ascii_of_string PyChar.punctuation)
  = [33; 34; 35; 36; 37; 38; 39; 40; 41; 42; 43; 44; 45; 46; 47;
     58; 59; 60; 61; 62; 63; 64; 91; 92; 93; 94; 95; 96;
     123; 124; 125; 126]%N.
Proof. reflexivity. Qed.

Example simple_preprocess_example :
  LLM_QA_CLI.simple_preprocess (PStr "  What IS   6*7?  ")
  = ("what is 67", ["what"; "is"; "67"]).
Proof. reflexivity. Qed.

Example simple_preprocess_blank :
  LLM_QA_CLI.simple_preprocess (PStr " ?! ") = (EmptyString, []).
Proof. reflexivity. Qed.

Example split_keeps_empty_pieces :
  PyStr.split " " "a  b" = ["a"; EmptyString; "b"].
Proof. reflexivity. Qed.

Example str_of_values :
  Py.str (PDict [("n", PInt (-3)); ("ok", PBool true);
                 ("xs", PList [PNone; PFloat "0.5"; PStr "it's"])])
  = String "{"
      ("'n': -3, 'ok': True, 'xs': [None, 0.5, "
         ++ String PyChar.dquote ("it's" ++ String PyChar.dquote "]}")).
Proof. reflexivity. Qed.

Example legacy_text_extracted :
  LLM_QA_CLI.assistant_text Sample.legacy_answer
  = Ok (PStr "legacy-answer").
Proof. reflexivity. Qed.

Example get_answer_success :
  run (LLM_QA_CLI.get_answer Sample.environ
         (Sample.answers_with Sample.answer_42)
         (PStr "What IS 6*7?") "groq-llama3-13b" 30)
  = (Ok (PDict [("ok", PBool true);
                ("answer", PStr "42");
                ("raw", Sample.answer_42);
                ("error", PNone);
                ("preprocessed",
                 PDict [("cleaned", PStr "what is 67");
                        ("tokens",
                         PList [PStr "what"; PStr "is"; PStr "67"])])]),
     [Spec.the_call Sample.environ "gsk_test" (PStr "What IS 6*7?")
        "groq-llama3-13b" 30]).
Proof. reflexivity. Qed.

Example get_answer_without_api_key :
  run (LLM_QA_CLI.get_answer (fun _ => None)
         (Sample.answers_with Sample.answer_42)
         (PStr "What IS 6*7?") "groq-llama3-13b" 30)
  = (Ok (PDict [("ok", PBool false);
                ("answer", PStr EmptyString);
                ("raw", PNone);
                ("error",
                 PStr "GROQ_API_KEY is not set in environment variables.")]),
     []).
Proof. reflexivity. Qed.

(** ** The character tables *)

Module PyCharFacts.

Import PyChar.

Lemma lower_idempotent (c : ascii) : lower (lower c) = lower c.
Proof. by_table c. Qed.

Lemma lower_not_upper (c : ascii) : isupper (lower c) = false.
Proof. by_table c. Qed.

Lemma space_is_space : isspace " " = true.
Proof. reflexivity. Qed.

End PyCharFacts.

(** ** The string methods *)

Module PyStrFacts.

Import PyStr.

Section AllChars.

Variable p : ascii -> bool.

Lemma all_chars_translate_delete (d s : string) :
  all_chars p s = true -> all_chars p (translate_delete d s) = true.
Proof.
  induction s as [|c r IH]; simpl; auto.
  intros H. apply andb_true_iff in H as [Hc Hr].
  destruct (PyChar.mem c d); simpl; auto.
  rewrite Hc. simpl. auto.
Qed.

Hypothesis p_space : p " " = true.

Lemma all_chars_sub_ws_from (b : bool) (s : string) :
  all_chars p s = true -> all_chars p (sub_ws_from b s) = true.
Proof.
  revert b. induction s as [|c r IH]; simpl; auto.
  intros b H. apply andb_true_iff in H as [Hc Hr].
  destruct (PyChar.isspace c).
  - destruct b; simpl; auto. rewrite p_space. simpl. auto.
  - simpl. rewrite Hc. simpl. auto.
Qed.

End AllChars.

Lemma all_chars_lstrip (p : ascii -> bool) (s : string) :
  all_chars p s = true -> all_chars p (lstrip s) = true.
Proof.
  induction s as [|c r IH]; simpl; auto.
  intros H. destruct (PyChar.isspace c).
  - apply andb_true_iff in H as [_ Hr]. auto.
  - exact H.
Qed.

Lemma all_chars_rstrip (p : ascii -> bool) (s : string) :
  all_chars p s = true -> all_chars p (rstrip s) = true.
Proof.
  induction s as [|c r IH]; simpl; auto.
  intros H. apply andb_true_iff in H as [Hc Hr].
  destruct (PyChar.isspace c && is_empty (rstrip r)); simpl; auto.
  rewrite Hc. simpl. auto.
Qed.

Lemma all_chars_strip (p : ascii -> bool) (s : string) :
  all_chars p s = true -> all_chars p (strip s) = true.
Proof.
  intros H. unfold strip. apply all_chars_rstrip, all_chars_lstrip, H.
Qed.

Lemma all_chars_lower (p : ascii -> bool) (s : string) :
  (forall c, p (PyChar.lower c) = true) -> all_chars p (lower s) = true.
Proof.
  intros H. induction s as [|c r IH]; simpl; auto.
  rewrite H. simpl. exact IH.
Qed.

Lemma all_chars_and (p q : ascii -> bool) (s : string) :
  all_chars p s = true -> all_chars q s = true ->
  all_chars (fun c => p c && q c) s = true.
Proof.
  induction s as [|c r IH]; simpl; auto.
  intros Hp Hq.
  apply andb_true_iff in Hp as [Hp1 Hp2].
  apply andb_true_iff in Hq as [Hq1 Hq2].
  rewrite Hp1, Hq1. simpl. auto.
Qed.

Lemma translate_delete_clean (d s : string) :
  all_chars (fun c => negb (PyChar.mem c d)) (translate_delete d s) = true.
Proof.
  induction s as [|c r IH]; simpl; auto.
  destruct (PyChar.mem c d) eqn:E; simpl; auto.
  rewrite E. simpl. exact IH.
Qed.

(** Strings on which a method does nothing *)

Lemma lower_fixed (s : string) :
  all_chars (fun c => Ascii.eqb (PyChar.lower c) c) s = true -> lower s = s.
Proof.
  induction s as [|c r IH]; simpl; auto.
  intros H. apply andb_true_iff in H as [Hc Hr].
  apply Ascii.eqb_eq in Hc. rewrite Hc, IH; auto.
Qed.

Lemma translate_delete_fixed (d s : string) :
  all_chars (fun c => negb (PyChar.mem c d)) s = true ->
  translate_delete d s = s.
Proof.
  induction s as [|c r IH]; simpl; auto.
  intros H. apply andb_true_iff in H as [Hc Hr].
  apply negb_true_iff in Hc. rewrite Hc, IH; auto.
Qed.

Lemma collapsed_sub_ws_from (b : bool) (s : string) :
  collapsed b (sub_ws_from b s) = true.
Proof.
  revert b. induction s as [|c r IH]; intros b; simpl; auto.
  destruct (PyChar.isspace c) eqn:E.
  - destruct b; simpl; auto.
  - simpl. rewrite E. auto.
Qed.

Lemma collapsed_weaken (b : bool) (s : string) :
  collapsed b s = true -> collapsed false s = true.
Proof.
  destruct s as [|c r]; simpl; auto.
  destruct (PyChar.isspace c); auto.
  intros H. apply andb_true_iff in H as [H Hr].
  apply andb_true_iff in H as [Hc _].
  rewrite Hc, Hr. reflexivity.
Qed.

Lemma collapsed_tail (b : bool) (c : ascii) (r : string) :
  collapsed b (String c r) = true -> collapsed (PyChar.isspace c) r = true.
Proof.
  simpl. destruct (PyChar.isspace c); auto.
  intros H. apply andb_true_iff in H as [_ Hr]. exact Hr.
Qed.

Lemma collapsed_lstrip (b : bool) (s : string) :
  collapsed b s = true -> collapsed false (lstrip s) = true.
Proof.
  revert b. induction s as [|c r IH]; intros b H; simpl; auto.
  destruct (PyChar.isspace c) eqn:E.
  - apply collapsed_tail in H. eapply IH; eauto.
  - simpl in *. rewrite E in *. exact H.
Qed.

Lemma collapsed_rstrip (b : bool) (s : string) :
  collapsed b s = true -> collapsed b (rstrip s) = true.
Proof.
  revert b. induction s as [|c r IH]; intros b H; simpl; auto.
  destruct (PyChar.isspace c && is_empty (rstrip r)) eqn:E; simpl; auto.
  simpl in H. destruct (PyChar.isspace c).
  - apply andb_true_iff in H as [H Hr]. rewrite H. simpl. auto.
  - auto.
Qed.

Lemma sub_ws_from_fixed (b : bool) (s : string) :
  collapsed b s = true -> sub_ws_from b s = s.
Proof.
  revert b. induction s as [|c r IH]; intros b H; simpl; auto.
  simpl in H. destruct (PyChar.isspace c).
  - apply andb_true_iff in H as [H Hr].
    apply andb_true_iff in H as [Hc Hb].
    apply Ascii.eqb_eq in Hc. apply negb_true_iff in Hb. subst.
    rewrite IH; auto.
  - rewrite IH; auto.
Qed.

Lemma lstrip_head (s : string) :
  lstrip s = EmptyString \/
  exists c r, lstrip s = String c r /\ PyChar.isspace c = false.
Proof.
  induction s as [|c r IH]; simpl; auto.
  destruct (PyChar.isspace c) eqn:E; auto.
  right. exists c, r. auto.
Qed.

Lemma rstrip_idempotent (s : string) : rstrip (rstrip s) = rstrip s.
Proof.
  induction s as [|c r IH]; simpl; auto.
  destruct (PyChar.isspace c && is_empty (rstrip r)) eqn:E; simpl; auto.
  rewrite IH, E. reflexivity.
Qed.

Lemma strip_idempotent (s : string) : strip (strip s) = strip s.
Proof.
  unfold strip.
  destruct (lstrip_head s) as [H | (c & r & H & Hc)]; rewrite H.
  - reflexivity.
  - simpl. rewrite Hc. simpl. rewrite Hc. simpl.
    rewrite Hc. simpl. rewrite rstrip_idempotent. reflexivity.
Qed.

Lemma split_all_chars (p : ascii -> bool) (sep : ascii) (s : string) :
  all_chars p s = true -> forallb (all_chars p) (split sep s) = true.
Proof.
  induction s as [|c r IH]; simpl; auto.
  intros H. apply andb_true_iff in H as [Hc Hr].
  specialize (IH Hr).
  destruct (Ascii.eqb c sep); simpl; auto.
  destruct (split sep r) as [|t ts]; simpl in *.
  - rewrite Hc. reflexivity.
  - rewrite Hc. exact IH.
Qed.

(** A string of whitespace is stripped to nothing. *)
Lemma strip_whitespace (s : string) :
  all_chars PyChar.isspace s = true -> strip s = EmptyString.
Proof.
  unfold strip. induction s as [|c r IH]; simpl; auto.
  intros H. apply andb_true_iff in H as [Hc Hr].
  rewrite Hc. auto.
Qed.

End PyStrFacts.

(** ** The provider client and the answer service *)

Module ServiceFacts.

Import Requests Spec.

Section Calls.

Variable environ : string -> option string.
Variable network : Network.

Lemma call_raw_run (key : string) (question : PyVal) (model : string)
    (timeout : Z) :
  environ "GROQ_API_KEY" = Some key ->
  PyStr.is_empty key = false ->
  run (LLM_QA_CLI._call_groq_chat_raw environ network question model timeout)
  = (outcome_of (network (the_call environ key question model timeout)),
     [the_call environ key question model timeout]).
Proof.
  intros Hk Hne.
  unfold run, LLM_QA_CLI._call_groq_chat_raw, LLM_QA_CLI.GROQ_API_KEY,
    LLM_QA_CLI.key_is_set, LLM_QA_CLI.format_key, the_call.
  rewrite Hk, Hne. simpl.
  unfold bind, post. simpl.
  destruct (network _) as [resp | e]; simpl; auto.
  unfold check_status, parse_json.
  destruct (raise_for_status resp); simpl; auto.
  destruct (json resp) as [v | [c msg]]; reflexivity.
Qed.

Lemma call_raw_without_key (question : PyVal) (model : string)
    (timeout : Z) :
  LLM_QA_CLI.key_is_set (environ "GROQ_API_KEY") = false ->
  run (LLM_QA_CLI._call_groq_chat_raw environ network question model timeout)
  = (Raise (mkExn RuntimeError
              "GROQ_API_KEY is not set in environment variables." None),
     []).
Proof.
  intros H. unfold run, LLM_QA_CLI._call_groq_chat_raw,
    LLM_QA_CLI.GROQ_API_KEY.
  rewrite H. reflexivity.
Qed.

Lemma get_answer_run (key : string) (question : PyVal) (model : string)
    (timeout : Z) :
  environ "GROQ_API_KEY" = Some key ->
  PyStr.is_empty key = false ->
  Py.truthy question = true ->
  PyStr.is_empty (PyStr.strip (Py.str question)) = false ->
  run (LLM_QA_CLI.get_answer environ network question model timeout)
  = (Ok (packaged question
           (outcome_of (network (the_call environ key question model timeout)))),
     [the_call environ key question model timeout]).
Proof.
  intros Hk Hne Ht Hs.
  pose proof (call_raw_run key question model timeout Hk Hne) as Hraw.
  unfold run in *.
  unfold LLM_QA_CLI.get_answer, try_except.
  rewrite Ht, Hs. cbn [negb orb].
  unfold LLM_QA_CLI.simple_preprocess at 1.
  unfold bind. rewrite Hraw.
  destruct (outcome_of _) as [raw | e]; cbn [packaged].
  - reflexivity.
  - cbn [dispatch]. destruct (is_HTTPError e); reflexivity.
Qed.

(** Without a key the answer service sends nothing. *)
Lemma get_answer_without_key (question : PyVal) (model : string)
    (timeout : Z) :
  LLM_QA_CLI.key_is_set (environ "GROQ_API_KEY") = false ->
  snd (run (LLM_QA_CLI.get_answer environ network question model timeout))
  = [].
Proof.
  intros Hk.
  pose proof (call_raw_without_key question model timeout Hk) as Hraw.
  unfold run in *.
  unfold LLM_QA_CLI.get_answer, try_except.
  destruct (negb (Py.truthy question)
            || PyStr.is_empty (PyStr.strip (Py.str question))).
  - reflexivity.
  - unfold LLM_QA_CLI.simple_preprocess at 1.
    unfold bind. rewrite Hraw. reflexivity.
Qed.

(** The web server's client sends its POST whatever the question is. *)
Lemma call_groq_chat_log (question : PyVal) (model : string)
    (timeout : Z) :
  snd (run (App.call_groq_chat environ network question model timeout))
  = [mkPost "https://api.groq.com/openai/v1/chat/completions"
       [("Authorization",
         "Bearer " ++ LLM_QA_CLI.format_key (environ "GROQ_API_KEY"));
        ("Content-Type", "application/json")]
       (PDict [("model", PStr model);
               ("messages",
                PList [PDict [("role", PStr "system");
                              ("content",
                               PStr "You are a helpful assistant.")];
                       PDict [("role", PStr "user");
                              ("content", question)]]);
               ("temperature", PFloat "0.2");
               ("max_tokens", PInt 512)])
       timeout].
Proof.
  unfold run, App.call_groq_chat, bind, post. cbn [app].
  destruct (network _) as [resp | e]; cbn [snd]; auto.
  unfold check_status, parse_json.
  destruct (raise_for_status resp); cbn; auto.
  destruct (json resp) as [v | [c msg]]; reflexivity.
Qed.


(** The answer service turns every exception into a result. *)
Lemma get_answer_never_raises (question : PyVal) (model : string)
    (timeout : Z) :
  exists d, fst (run (LLM_QA_CLI.get_answer environ network question
                        model timeout)) = Ok d.
Proof.
  unfold run, LLM_QA_CLI.get_answer, try_except.
  destruct (negb (Py.truthy question)
            || PyStr.is_empty (PyStr.strip (Py.str question))).
  - eexists. reflexivity.
  - unfold LLM_QA_CLI.simple_preprocess at 1. unfold bind.
    destruct (LLM_QA_CLI._call_groq_chat_raw _ _ _ _ _ _) as [[raw | e] log].
    + eexists. reflexivity.
    + cbn [dispatch]. destruct (is_HTTPError e); eexists; reflexivity.
Qed.


End Calls.

End ServiceFacts.

(** ** The text normalizer *)

Module NormalizerFacts.

Import PyStr PyStrFacts Spec.

Lemma simple_preprocess_eq (text : PyVal) :
  LLM_QA_CLI.simple_preprocess text
  = (cleaned_of (Py.str text),
     if is_empty (cleaned_of (Py.str text)) then []
     else split " " (cleaned_of (Py.str text))).
Proof. reflexivity. Qed.

(** Every character of the cleaned text satisfies [p], when the lowered,
    punctuation-free text does and the space does. *)
Lemma cleaned_all_chars (p : ascii -> bool) (text : string) :
  p " "%char = true ->
  all_chars p (translate_delete PyChar.punctuation (lower text)) = true ->
  all_chars p (cleaned_of text) = true.
Proof.
  intros Hsp H. unfold cleaned_of, sub_ws.
  apply all_chars_strip, all_chars_sub_ws_from; assumption.
Qed.

Lemma cleaned_lowercase (text : string) :
  all_chars (fun c => Ascii.eqb (PyChar.lower c) c) (cleaned_of text) = true.
Proof.
  apply cleaned_all_chars; [reflexivity |].
  apply all_chars_translate_delete, all_chars_lower.
  intros c. rewrite PyCharFacts.lower_idempotent. apply Ascii.eqb_refl.
Qed.

Lemma cleaned_no_upper (text : string) :
  all_chars (fun c => negb (PyChar.isupper c)) (cleaned_of text) = true.
Proof.
  apply cleaned_all_chars; [reflexivity |].
  apply all_chars_translate_delete, all_chars_lower.
  intros c. rewrite PyCharFacts.lower_not_upper. reflexivity.
Qed.

Lemma cleaned_no_punctuation (text : string) :
  all_chars (fun c => negb (PyChar.ispunct c)) (cleaned_of text) = true.
Proof.
  apply cleaned_all_chars; [reflexivity |].
  apply translate_delete_clean.
Qed.

Lemma cleaned_collapsed (text : string) :
  collapsed false (cleaned_of text) = true.
Proof.
  unfold cleaned_of, strip, sub_ws.
  apply collapsed_rstrip.
  apply (collapsed_lstrip false).
  apply collapsed_sub_ws_from.
Qed.

Lemma cleaned_of_idempotent (text : string) :
  cleaned_of (cleaned_of text) = cleaned_of text.
Proof.
  unfold cleaned_of at 1.
  rewrite (lower_fixed _ (cleaned_lowercase text)).
  rewrite (translate_delete_fixed _ _ (cleaned_no_punctuation text)).
  unfold sub_ws.
  rewrite (sub_ws_from_fixed _ _ (cleaned_collapsed text)).
  unfold cleaned_of. apply strip_idempotent.
Qed.

End NormalizerFacts.

(** ** The extraction of the assistant text *)

Module ExtractionFacts.

(** In [get_answer], a first choice of the message-based shape gives the
    [content] of its message, or the empty string when that is absent,
    null or otherwise falsy. *)
Lemma message_content (rd d m : list (string * PyVal))
    (rest : list PyVal) :
  Py.lookup "choices" rd = Some (PList (PDict d :: rest)) ->
  Py.lookup "message" d = Some (PDict m) ->
  LLM_QA_CLI.assistant_text (PDict rd)
  = Ok (match Py.lookup "content" m with
        | Some c => Py.or_ c (PStr EmptyString)
        | None => PStr EmptyString
        end).
Proof.
  intros Hch Hm.
  unfold LLM_QA_CLI.assistant_text, LLM_QA_CLI.assistant_text_body.
  cbn [Access.get Access.bind]. rewrite Hch.
  cbn [Access.bind Py.truthy Py.isinstance_list andb Access.getitem0].
  assert (Hor : Py.or_ (PDict d) (PDict []) = PDict d).
  { destruct d; [discriminate Hm | reflexivity]. }
  rewrite Hor.
  cbn [Access.contains Access.getitem Access.bind].
  unfold Py.has_key. rewrite Hm.
  cbn [Access.bind Py.isinstance_dict Access.get].
  destruct (Py.lookup "content" m); reflexivity.
Qed.

(** A message whose content is a string, is null or is missing *)
Lemma message_text_content (rd d m : list (string * PyVal))
    (rest : list PyVal) :
  Py.lookup "choices" rd = Some (PList (PDict d :: rest)) ->
  Py.lookup "message" d = Some (PDict m) ->
  (forall s, Py.lookup "content" m = Some (PStr s) ->
             LLM_QA_CLI.assistant_text (PDict rd) = Ok (PStr s))
  /\ (Py.lookup "content" m = Some PNone ->
      LLM_QA_CLI.assistant_text (PDict rd) = Ok (PStr EmptyString))
  /\ (Py.lookup "content" m = None ->
      LLM_QA_CLI.assistant_text (PDict rd) = Ok (PStr EmptyString)).
Proof.
  intros Hch Hm.
  rewrite (message_content rd d m rest Hch Hm).
  repeat split.
  - intros s ->. destruct s; reflexivity.
  - intros ->. reflexivity.
  - intros ->. reflexivity.
Qed.

(** In [call_groq_chat] of the web server, the same shape gives the
    [content] as it is, and the empty string only when it is missing. *)
Lemma app_message_content (rd d m : list (string * PyVal))
    (rest : list PyVal) :
  Py.lookup "choices" rd = Some (PList (PDict d :: rest)) ->
  Py.lookup "message" d = Some (PDict m) ->
  App.assistant_text (PDict rd)
  = Ok (match Py.lookup "content" m with
        | Some c => c
        | None => PStr EmptyString
        end).
Proof.
  intros Hch Hm.
  unfold App.assistant_text, App.assistant_text_body.
  cbn [Access.get Access.bind]. rewrite Hch.
  cbn [Access.bind Access.getitem0 Access.get]. rewrite Hm.
  cbn [Access.bind Access.get].
  destruct (Py.lookup "content" m); reflexivity.
Qed.

End ExtractionFacts.

(** ** The claims *)

(** C1. For every question that is an empty string or consists only of
    whitespace, [get_answer] returns exactly
    [{ok: False, answer: '', raw: None, error: 'Empty question.'}] and
    sends nothing: the log of outbound calls is empty. *)
Theorem C1_blank_question_rejected
    (environ : string -> option string) (network : Network)
    (s : string) (model : string) (timeout : Z) :
  PyStr.all_chars PyChar.isspace s = true ->
  run (LLM_QA_CLI.get_answer environ network (PStr s) model timeout)
  = (Ok (PDict [("ok", PBool false); ("answer", PStr EmptyString);
                ("raw", PNone); ("error", PStr "Empty question.")]),
     []).
Proof.
  intros H.
  unfold run, LLM_QA_CLI.get_answer, try_except.
  cbn [Py.str].
  rewrite (PyStrFacts.strip_whitespace s H).
  cbn [PyStr.is_empty]. rewrite orb_true_r. reflexivity.
Qed.

Lemma C1_blank_question_rejected_witness :
  PyStr.all_chars PyChar.isspace "   " = true /\
  run (LLM_QA_CLI.get_answer Sample.environ
         (Sample.answers_with PNone) (PStr "   ") "groq-llama3-13b" 30)
  = (Ok (PDict [("ok", PBool false); ("answer", PStr EmptyString);
                ("raw", PNone); ("error", PStr "Empty question.")]),
     []).
Proof.
  split; [reflexivity | apply C1_blank_question_rejected; reflexivity].
Defined.

(** C10. For every falsy question argument ([None], [0], [False], [[]],
    [{}], ...) [get_answer] returns the "Empty question." result and sends
    nothing, whatever [str(question)] is: the truthiness of the raw
    argument is tested first. *)
Theorem C10_falsy_question_rejected
    (environ : string -> option string) (network : Network)
    (question : PyVal) (model : string) (timeout : Z) :
  Py.truthy question = false ->
  run (LLM_QA_CLI.get_answer environ network question model timeout)
  = (Ok (PDict [("ok", PBool false); ("answer", PStr EmptyString);
                ("raw", PNone); ("error", PStr "Empty question.")]),
     []).
Proof.
  intros H.
  unfold run, LLM_QA_CLI.get_answer, try_except.
  rewrite H. reflexivity.
Qed.

Lemma C10_falsy_question_rejected_witness :
  Py.truthy (PInt 0) = false /\
  PyStr.strip (Py.str (PInt 0)) = "0" /\
  run (LLM_QA_CLI.get_answer Sample.environ
         (Sample.answers_with PNone) (PInt 0) "groq-llama3-13b" 30)
  = (Ok (PDict [("ok", PBool false); ("answer", PStr EmptyString);
                ("raw", PNone); ("error", PStr "Empty question.")]),
     []).
Proof.
  split; [reflexivity | split; [reflexivity |]].
  apply C10_falsy_question_rejected. reflexivity.
Defined.


(** C3. With an API key configured, the provider client sends exactly one
    POST, whose JSON body is
    [{model, messages: [system "You are a helpful assistant.", user
    <question>], temperature: 0.2, max_tokens: 512}] with the question as
    it was given, not its normalized form; so does [get_answer] for every
    question it does not reject, and so does the web server's client. *)
Theorem C3_single_post_with_verbatim_question
    (environ : string -> option string) (network : Network)
    (key : string) (question : PyVal) (model : string) (timeout : Z) :
  environ "GROQ_API_KEY" = Some key ->
  PyStr.is_empty key = false ->
  let headers :=
    [("Authorization", "Bearer " ++ key);
     ("Content-Type", "application/json")] in
  let body :=
    PDict [("model", PStr model);
           ("messages",
            PList [PDict [("role", PStr "system");
                          ("content", PStr "You are a helpful assistant.")];
                   PDict [("role", PStr "user");
                          ("content", question)]]);
           ("temperature", PFloat "0.2");
           ("max_tokens", PInt 512)] in
  snd (run (LLM_QA_CLI._call_groq_chat_raw environ network question
              model timeout))
  = [mkPost (LLM_QA_CLI.CHAT_COMPLETIONS_URL environ) headers body timeout]
  /\
  (Py.truthy question = true ->
   PyStr.is_empty (PyStr.strip (Py.str question)) = false ->
   snd (run (LLM_QA_CLI.get_answer environ network question model timeout))
   = [mkPost (LLM_QA_CLI.CHAT_COMPLETIONS_URL environ) headers body timeout])
  /\
  snd (run (App.call_groq_chat environ network question model timeout))
  = [mkPost "https://api.groq.com/openai/v1/chat/completions"
       headers body timeout].
Proof.
  intros Hk Hne headers body. repeat split.
  - rewrite (ServiceFacts.call_raw_run environ network key question
               model timeout Hk Hne).
    reflexivity.
  - intros Ht Hs.
    rewrite (ServiceFacts.get_answer_run environ network key question
               model timeout Hk Hne Ht Hs).
    reflexivity.
  - rewrite ServiceFacts.call_groq_chat_log. rewrite Hk. reflexivity.
Qed.

Lemma C3_single_post_with_verbatim_question_witness :
  map post_json
    (snd (run (LLM_QA_CLI.get_answer Sample.environ
                 (Sample.answers_with Sample.answer_42)
                 (PStr "What IS 6*7?") "groq-llama3-13b" 30)))
  = [PDict [("model", PStr "groq-llama3-13b");
            ("messages",
             PList [PDict [("role", PStr "system");
                           ("content", PStr "You are a helpful assistant.")];
                    PDict [("role", PStr "user");
                           ("content", PStr "What IS 6*7?")]]);
            ("temperature", PFloat "0.2");
            ("max_tokens", PInt 512)]].
Proof.
  destruct (C3_single_post_with_verbatim_question Sample.environ
              (Sample.answers_with Sample.answer_42) "gsk_test"
              (PStr "What IS 6*7?") "groq-llama3-13b" 30
              eq_refl eq_refl) as (_ & H & _).
  rewrite (H eq_refl eq_refl). reflexivity.
Defined.





(** C8. The text normalizer is idempotent: applying [simple_preprocess] to
    the cleaned string it produced gives the same cleaned string and the
    same tokens. *)
Theorem C8_simple_preprocess_idempotent (s : string) :
  LLM_QA_CLI.simple_preprocess
    (PStr (fst (LLM_QA_CLI.simple_preprocess (PStr s))))
  = LLM_QA_CLI.simple_preprocess (PStr s).
Proof.
  rewrite (NormalizerFacts.simple_preprocess_eq (PStr s)).
  cbn [fst].
  rewrite NormalizerFacts.simple_preprocess_eq.
  cbn [Py.str].
  rewrite NormalizerFacts.cleaned_of_idempotent.
  reflexivity.
Qed.

(** On strings of code points below U+0100, no token that the text
    normalizer produces contains a punctuation character (a character of
    [string.punctuation]) or an uppercase letter. *)
Lemma latin1_tokens_without_punctuation_or_uppercase (s : string) :
  forallb
    (PyStr.all_chars
       (fun c => negb (PyChar.ispunct c) && negb (PyChar.isupper c)))
    (snd (LLM_QA_CLI.simple_preprocess (PStr s)))
  = true.
Proof.
  rewrite NormalizerFacts.simple_preprocess_eq. cbn [snd Py.str].
  destruct (PyStr.is_empty (Spec.cleaned_of s)); [reflexivity |].
  apply PyStrFacts.split_all_chars.
  apply (PyStrFacts.all_chars_and
           (fun c => negb (PyChar.ispunct c))
           (fun c => negb (PyChar.isupper c))).
  - apply NormalizerFacts.cleaned_no_punctuation.
  - apply NormalizerFacts.cleaned_no_upper.
Qed.

(** C6. The extraction never raises: whatever the response is, the [try]
    statement ends normally, with the value its body computed or, when the
    body failed, with the empty string; [{"choices": []}] and [{}] give
    the empty string.  This holds for the extraction of [get_answer] and
    for that of the web server. *)
Theorem C6_extraction_never_raises (raw : PyVal) :
  LLM_QA_CLI.assistant_text raw
  = Ok (match LLM_QA_CLI.assistant_text_body raw with
        | Ok v => v
        | Raise _ => PStr EmptyString
        end)
  /\
  App.assistant_text raw
  = Ok (match App.assistant_text_body raw with
        | Ok v => v
        | Raise _ => PStr EmptyString
        end)
  /\
  LLM_QA_CLI.assistant_text (PDict [("choices", PList [])])
  = Ok (PStr EmptyString)
  /\ LLM_QA_CLI.assistant_text (PDict []) = Ok (PStr EmptyString)
  /\ App.assistant_text (PDict [("choices", PList [])])
     = Ok (PStr EmptyString)
  /\ App.assistant_text (PDict []) = Ok (PStr EmptyString).
Proof.
  repeat split.
  - unfold LLM_QA_CLI.assistant_text, Access.try_except.
    destruct (LLM_QA_CLI.assistant_text_body raw); reflexivity.
  - unfold App.assistant_text, Access.try_except.
    destruct (App.assistant_text_body raw); reflexivity.
Qed.

(** C7, as amended.  When the first choice is a mapping, or a null or
    otherwise falsy value (which the code replaces by the empty mapping),
    and matches neither the message-based nor the legacy text-based shape,
    the extraction returns the string rendering [str(first)] of that first
    choice, which is never the empty string. *)
Theorem C7_unrecognized_choice_is_rendered (raw c : PyVal) :
  Spec.first_choice raw = Some c ->
  Spec.message_shape c = false ->
  Spec.text_shape c = false ->
  Py.isinstance_dict c = true \/ Py.truthy c = false ->
  LLM_QA_CLI.assistant_text raw
  = Ok (PStr (Py.str (Py.or_ c (PDict []))))
  /\ Py.str (Py.or_ c (PDict [])) <> EmptyString.
Proof.
  intros Hfirst Hmsg Htxt Hc.
  assert (Hfst : exists d, Py.or_ c (PDict []) = PDict d
                           /\ Spec.message_shape (PDict d) = false
                           /\ Spec.text_shape (PDict d) = false).
  { destruct Hc as [Hd | Hf].
    - destruct c; try discriminate Hd.
      exists bindings. split; [| auto].
      unfold Py.or_. destruct bindings; reflexivity.
    - exists []. unfold Py.or_. rewrite Hf. auto. }
  destruct Hfst as (d & Hor & Hm & Ht).
  split.
  - destruct raw as [| | | | | |rd]; try discriminate Hfirst.
    unfold Spec.first_choice in Hfirst.
    unfold LLM_QA_CLI.assistant_text, LLM_QA_CLI.assistant_text_body.
    cbn [Access.get Access.bind].
    destruct (Py.lookup "choices" rd) as [[| | | | |[|c0 rest]|]|];
      try discriminate Hfirst.
    injection Hfirst as ->.
    cbn [Access.bind Py.truthy Py.isinstance_list andb Access.getitem0].
    rewrite Hor.
    cbn [Access.contains Access.getitem Access.bind].
    unfold Spec.message_shape, Spec.text_shape, Py.has_key in *.
    destruct (Py.lookup "message" d) as [[]|]; try discriminate Hm;
      cbn [Access.bind Py.isinstance_dict];
      destruct (Py.lookup "text" d); try discriminate Ht; reflexivity.
  - rewrite Hor. cbn [Py.str Py.repr]. discriminate.
Qed.

Lemma C7_unrecognized_choice_is_rendered_witness :
  LLM_QA_CLI.assistant_text Sample.delta_answer
  = Ok (PStr "{'delta': {'content': 'hi'}}").
Proof.
  apply (C7_unrecognized_choice_is_rendered Sample.delta_answer
           (PDict [("delta", PDict [("content", PStr "hi")])])
           eq_refl eq_refl eq_refl (or_introl eq_refl)).
Defined.

(** C7, as stated, fails: the first choice [{"delta": {"content": "hi"}}]
    has neither shape and the extraction returns its rendering, not the
    empty string. *)
Lemma C7_counterexample :
  Spec.first_choice Sample.delta_answer
  = Some (PDict [("delta", PDict [("content", PStr "hi")])])
  /\ Spec.message_shape (PDict [("delta", PDict [("content", PStr "hi")])])
     = false
  /\ Spec.text_shape (PDict [("delta", PDict [("content", PStr "hi")])])
     = false
  /\ LLM_QA_CLI.assistant_text Sample.delta_answer
     = Ok (PStr "{'delta': {'content': 'hi'}}")
  /\ LLM_QA_CLI.assistant_text Sample.delta_answer <> Ok (PStr EmptyString).
Proof.
  repeat split. discriminate.
Qed.

(** C2.  The two pipelines do not give the same answer.  On the legacy
    response [{"choices": [{"text": "legacy-answer"}]}] the answer of
    [get_answer] is ["legacy-answer"] and that of the web server's
    [call_groq_chat] is the empty string; on the unrecognized first choice
    [{"delta": {"content": "hi"}}] the first gives its rendering and the
    second the empty string; on a message whose content is null the first
    gives the empty string and the second [None]. *)
Theorem C2_web_server_answer_differs :
  answer_of
    (fst (run (LLM_QA_CLI.get_answer Sample.environ
                 (Sample.answers_with Sample.legacy_answer)
                 (PStr "hi") "groq-llama3-13b" 30)))
  = Some (PStr "legacy-answer")
  /\
  answer_of
    (fst (run (App.call_groq_chat Sample.environ
                 (Sample.answers_with Sample.legacy_answer)
                 (PStr "hi") "groq-llama3-13b" 30)))
  = Some (PStr EmptyString)
  /\
  answer_of
    (fst (run (LLM_QA_CLI.get_answer Sample.environ
                 (Sample.answers_with Sample.delta_answer)
                 (PStr "hi") "groq-llama3-13b" 30)))
  = Some (PStr "{'delta': {'content': 'hi'}}")
  /\
  answer_of
    (fst (run (App.call_groq_chat Sample.environ
                 (Sample.answers_with Sample.delta_answer)
                 (PStr "hi") "groq-llama3-13b" 30)))
  = Some (PStr EmptyString)
  /\
  answer_of
    (fst (run (LLM_QA_CLI.get_answer Sample.environ
                 (Sample.answers_with Sample.null_content)
                 (PStr "hi") "groq-llama3-13b" 30)))
  = Some (PStr EmptyString)
  /\
  answer_of
    (fst (run (App.call_groq_chat Sample.environ
                 (Sample.answers_with Sample.null_content)
                 (PStr "hi") "groq-llama3-13b" 30)))
  = Some PNone.
Proof.
  repeat split.
Qed.

(** C4, as amended.  On [{"choices": [{"message": {"content": "42"}}]}]
    the extraction gives ["42"], in [get_answer] and in the web server.
    In general, when the first choice is a mapping whose [message] field
    is a mapping, the assistant text that [get_answer] extracts is the
    [content] field of that mapping when it is truthy, and the empty
    string when the field is absent, null or otherwise falsy. *)
Theorem C4_message_content_extracted (raw c : PyVal) :
  Spec.first_choice raw = Some c ->
  Spec.message_shape c = true ->
  LLM_QA_CLI.assistant_text raw
  = Ok (match Spec.content_field c with
        | Some x => if Py.truthy x then x else PStr EmptyString
        | None => PStr EmptyString
        end)
  /\ LLM_QA_CLI.assistant_text Sample.answer_42 = Ok (PStr "42")
  /\ App.assistant_text Sample.answer_42 = Ok (PStr "42").
Proof.
  intros Hfirst Hshape.
  split; [| split; reflexivity].
  destruct raw as [| | | | | |rd]; try discriminate Hfirst.
  unfold Spec.first_choice in Hfirst.
  destruct (Py.lookup "choices" rd) as [[| | | | |[|c0 rest]|]|] eqn:Hch;
    try discriminate Hfirst.
  injection Hfirst as ->.
  destruct c as [| | | | | |d]; try discriminate Hshape.
  unfold Spec.message_shape in Hshape. unfold Spec.content_field.
  destruct (Py.lookup "message" d) as [[| | | | | |m]|] eqn:Hm;
    try discriminate Hshape.
  rewrite (ExtractionFacts.message_content rd d m rest Hch Hm).
  reflexivity.
Qed.

Lemma C4_message_content_extracted_witness :
  LLM_QA_CLI.assistant_text Sample.null_content = Ok (PStr EmptyString).
Proof.
  apply (C4_message_content_extracted Sample.null_content
           (PDict [("message", PDict [("content", PNone)])])
           eq_refl eq_refl).
Defined.

(** C4, as stated, fails: in [{"choices": [{"message": {"content": 0}}]}]
    the first choice has a message that is a mapping, its [content] field
    is [0], neither absent nor null, and the extraction gives the empty
    string. *)
Lemma C4_counterexample :
  Spec.first_choice Sample.zero_content
  = Some (PDict [("message", PDict [("content", PInt 0)])])
  /\ Spec.message_shape (PDict [("message", PDict [("content", PInt 0)])])
     = true
  /\ Spec.content_field (PDict [("message", PDict [("content", PInt 0)])])
     = Some (PInt 0)
  /\ LLM_QA_CLI.assistant_text Sample.zero_content = Ok (PStr EmptyString)
  /\ LLM_QA_CLI.assistant_text Sample.zero_content <> Ok (PInt 0).
Proof.
  repeat split. discriminate.
Qed.

(** * Further properties of the code *)

(** ** Tokens *)

Module TokenFacts.

Import PyStr PyStrFacts Words.

Lemma split_not_nil (sep : ascii) (s : string) : split sep s <> [].
Proof.
  destruct s as [|c r]; simpl; [discriminate |].
  destruct (Ascii.eqb c sep); [discriminate |].
  destruct (split sep r); discriminate.
Qed.

Lemma join_cons (sep p q : string) (r : list string) :
  Py.join sep (p :: q :: r) = p ++ sep ++ Py.join sep (q :: r).
Proof. reflexivity. Qed.

(** [sep.join(s.split(sep)) == s] *)
Lemma join_split (sep : ascii) (s : string) :
  Py.join (String sep EmptyString) (split sep s) = s.
Proof.
  induction s as [|c r IH]; [reflexivity |].
  simpl split.
  pose proof (split_not_nil sep r) as Hn.
  destruct (split sep r) as [|t ts]; [congruence |].
  destruct (Ascii.eqb c sep) eqn:E.
  - apply Ascii.eqb_eq in E. subst c.
    rewrite join_cons, IH. reflexivity.
  - destruct ts as [|u us].
    + simpl in *. rewrite IH. reflexivity.
    + rewrite join_cons. rewrite join_cons in IH.
      rewrite <- IH. reflexivity.
Qed.

Lemma rstrip_fixed_tail (c : ascii) (r : string) :
  rstrip (String c r) = String c r ->
  rstrip r = r /\ (r = EmptyString -> PyChar.isspace c = false).
Proof.
  simpl. destruct (PyChar.isspace c && is_empty (rstrip r)) eqn:E;
    [discriminate |].
  intros H. injection H as H. split; [exact H |].
  intros ->. simpl in E. rewrite andb_true_r in E. exact E.
Qed.

(** The pieces of a collapsed string that does not end with a space: the
    first one has no whitespace, and is not empty when the string may not
    start with a space; the others are not empty and have no whitespace. *)
Lemma split_collapsed (r : string) (b : bool) :
  collapsed b r = true ->
  rstrip r = r ->
  (r = EmptyString -> b = false) ->
  match split " " r with
  | [] => false
  | t :: ts =>
      all_chars (fun c => negb (PyChar.isspace c)) t
      && (negb b || negb (is_empty t))
      && forallb token_ok ts
  end = true.
Proof.
  revert b. induction r as [|a r IH]; intros b Hc Hr He.
  - simpl. rewrite (He eq_refl). reflexivity.
  - apply rstrip_fixed_tail in Hr as [Hr Hlast].
    pose proof (collapsed_tail b a r Hc) as Htail.
    specialize (IH (PyChar.isspace a) Htail Hr Hlast).
    simpl in Hc. simpl split.
    destruct (PyChar.isspace a) eqn:Ea.
    + apply andb_true_iff in Hc as [Hc _].
      apply andb_true_iff in Hc as [Heq Hb].
      rewrite Heq. apply negb_true_iff in Hb. subst b.
      destruct (split " " r) as [|t ts]; [discriminate IH |].
      cbn [all_chars is_empty negb orb andb forallb].
      apply andb_true_iff in IH as [IH Hts].
      apply andb_true_iff in IH as [Ht Hne].
      unfold token_ok at 1. cbn [negb orb] in Hne.
      rewrite Hne, Ht, Hts. reflexivity.
    + assert (Hsp : Ascii.eqb a " " = false).
      { destruct (Ascii.eqb a " ") eqn:E; [| reflexivity].
        apply Ascii.eqb_eq in E. subst a. discriminate Ea. }
      rewrite Hsp.
      destruct (split " " r) as [|t ts]; [discriminate IH |].
      apply andb_true_iff in IH as [IH Hts].
      apply andb_true_iff in IH as [Ht _].
      cbn [all_chars is_empty negb]. rewrite Ea, Ht, Hts.
      cbn [negb andb]. rewrite orb_true_r. reflexivity.
Qed.

Lemma strip_fixed (s : string) : rstrip (strip s) = strip s.
Proof. unfold strip. apply rstrip_idempotent. Qed.

Lemma strip_collapsed_start (s : string) :
  collapsed false s = true -> collapsed true (strip s) = true.
Proof.
  intros H. unfold strip. apply collapsed_rstrip.
  pose proof (collapsed_lstrip false s H) as Hl.
  destruct (lstrip_head s) as [E | (c & r & E & Hc)]; rewrite E in *.
  - reflexivity.
  - simpl in *. rewrite Hc in *. exact Hl.
Qed.

(** When the cleaned text is empty *)

Lemma rstrip_empty (s : string) :
  is_empty (rstrip s) = all_chars PyChar.isspace s.
Proof.
  induction s as [|c r IH]; [reflexivity |].
  simpl. rewrite <- IH.
  destruct (PyChar.isspace c && is_empty (rstrip r)); reflexivity.
Qed.

Lemma lstrip_all_space (s : string) :
  all_chars PyChar.isspace (lstrip s) = all_chars PyChar.isspace s.
Proof.
  induction s as [|c r IH]; [reflexivity |].
  simpl. destruct (PyChar.isspace c) eqn:E.
  - exact IH.
  - simpl. rewrite E. reflexivity.
Qed.

Lemma strip_empty (s : string) :
  is_empty (strip s) = all_chars PyChar.isspace s.
Proof.
  unfold strip. rewrite rstrip_empty. apply lstrip_all_space.
Qed.

Lemma sub_ws_from_all_space (b : bool) (s : string) :
  all_chars PyChar.isspace (sub_ws_from b s) = all_chars PyChar.isspace s.
Proof.
  revert b. induction s as [|c r IH]; intros b; [reflexivity |].
  simpl. destruct (PyChar.isspace c) eqn:E.
  - destruct b; simpl; apply IH.
  - simpl. rewrite E. reflexivity.
Qed.

Lemma translate_delete_all_space (d s : string) :
  all_chars PyChar.isspace (translate_delete d s)
  = all_chars (fun c => PyChar.isspace c || PyChar.mem c d) s.
Proof.
  induction s as [|c r IH]; [reflexivity |].
  simpl. destruct (PyChar.mem c d).
  - rewrite orb_true_r. exact IH.
  - simpl. rewrite orb_false_r, IH. reflexivity.
Qed.

Lemma all_chars_of_lower (p : ascii -> bool) (s : string) :
  all_chars p (lower s) = all_chars (fun c => p (PyChar.lower c)) s.
Proof.
  induction s as [|c r IH]; [reflexivity |].
  simpl. rewrite IH. reflexivity.
Qed.

Lemma all_chars_ext (p q : ascii -> bool) (s : string) :
  (forall c, p c = q c) -> all_chars p s = all_chars q s.
Proof.
  intros H. induction s as [|c r IH]; [reflexivity |].
  simpl. rewrite H, IH. reflexivity.
Qed.

Lemma lower_keeps_space_and_punctuation (c : ascii) :
  PyChar.isspace (PyChar.lower c)
  || PyChar.mem (PyChar.lower c) PyChar.punctuation
  = PyChar.isspace c || PyChar.ispunct c.
Proof. by_table c. Qed.

Lemma cleaned_empty (s : string) :
  is_empty (Spec.cleaned_of s)
  = all_chars (fun c => PyChar.isspace c || PyChar.ispunct c) s.
Proof.
  unfold Spec.cleaned_of, sub_ws.
  rewrite strip_empty, sub_ws_from_all_space, translate_delete_all_space,
    all_chars_of_lower.
  apply all_chars_ext. apply lower_keeps_space_and_punctuation.
Qed.

End TokenFacts.

(** X1. The tokens joined by single spaces give the cleaned text back:
    [" ".join(tokens) == cleaned], for every input of
    [simple_preprocess]. *)
Theorem tokens_joined_give_cleaned (text : PyVal) :
  Py.join " " (snd (LLM_QA_CLI.simple_preprocess text))
  = fst (LLM_QA_CLI.simple_preprocess text).
Proof.
  rewrite NormalizerFacts.simple_preprocess_eq. cbn [fst snd].
  destruct (Spec.cleaned_of (Py.str text)) as [|c r] eqn:E.
  - reflexivity.
  - cbn [PyStr.is_empty]. apply (TokenFacts.join_split " ").
Qed.

(** X2. No token of [simple_preprocess] is empty and none contains a
    whitespace character. *)
Theorem tokens_not_empty_without_whitespace (text : PyVal) :
  forallb Words.token_ok (snd (LLM_QA_CLI.simple_preprocess text)) = true.
Proof.
  rewrite NormalizerFacts.simple_preprocess_eq. cbn [snd].
  destruct (PyStr.is_empty (Spec.cleaned_of (Py.str text))) eqn:E;
    [reflexivity |].
  pose proof (TokenFacts.split_collapsed (Spec.cleaned_of (Py.str text))
                true) as H.
  unfold Spec.cleaned_of in H at 1 2 3.
  specialize (H (TokenFacts.strip_collapsed_start _
                   (PyStrFacts.collapsed_sub_ws_from false _))
                (TokenFacts.strip_fixed _)).
  fold (Spec.cleaned_of (Py.str text)) in H.
  assert (Hne : Spec.cleaned_of (Py.str text) = EmptyString -> true = false).
  { intros Hz. rewrite Hz in E. discriminate E. }
  specialize (H Hne).
  destruct (PyStr.split " " (Spec.cleaned_of (Py.str text))) as [|t ts];
    [discriminate H |].
  apply andb_true_iff in H as [H Hts].
  apply andb_true_iff in H as [Ht Hn].
  cbn [forallb]. unfold Words.token_ok at 1.
  cbn [negb orb] in Hn. rewrite Hn, Ht, Hts. reflexivity.
Qed.

(** X3. [simple_preprocess] gives no token exactly when every character of the
    text is whitespace or punctuation. *)
Theorem no_token_iff_only_space_and_punctuation (s : string) :
  match snd (LLM_QA_CLI.simple_preprocess (PStr s)) with
  | [] => true
  | _ :: _ => false
  end
  = PyStr.all_chars (fun c => PyChar.isspace c || PyChar.ispunct c) s.
Proof.
  rewrite NormalizerFacts.simple_preprocess_eq. cbn [snd Py.str].
  rewrite <- TokenFacts.cleaned_empty.
  destruct (PyStr.is_empty (Spec.cleaned_of s)); [reflexivity |].
  pose proof (TokenFacts.split_not_nil " " (Spec.cleaned_of s)) as Hn.
  destruct (PyStr.split " " (Spec.cleaned_of s)); [congruence | reflexivity].
Qed.

(** ** The answer service, on every path *)

Module AnswerFacts.

Import Spec.

Section Paths.

Variable environ : string -> option string.
Variable network : Network.

(** Every result of [get_answer] is the rejection of the question or is
    built from the outcome of the provider client. *)
Lemma get_answer_cases (question : PyVal) (model : string) (timeout : Z) :
  run (LLM_QA_CLI.get_answer environ network question model timeout)
  = (Ok LLM_QA_CLI.empty_question, [])
  \/ exists out log,
       run (LLM_QA_CLI.get_answer environ network question model timeout)
       = (Ok (packaged question out), log)
       /\ run (LLM_QA_CLI._call_groq_chat_raw environ network question
                 model timeout) = (out, log).
Proof.
  unfold run, LLM_QA_CLI.get_answer, try_except.
  destruct (negb (Py.truthy question)
            || PyStr.is_empty (PyStr.strip (Py.str question))).
  - left. reflexivity.
  - right. unfold LLM_QA_CLI.simple_preprocess at 1. unfold bind.
    destruct (LLM_QA_CLI._call_groq_chat_raw _ _ _ _ _ _) as [[raw | e] log].
    + exists (Ok raw), log. split; reflexivity.
    + exists (Raise e), log. cbn [dispatch packaged].
      destruct (is_HTTPError e); split; reflexivity.
Qed.

Lemma call_raw_log_short (question : PyVal) (model : string)
    (timeout : Z) :
  (List.length
     (snd (run (LLM_QA_CLI._call_groq_chat_raw environ network question
                  model timeout))) <= 1)%nat.
Proof.
  destruct (LLM_QA_CLI.key_is_set (environ "GROQ_API_KEY")) eqn:Hk.
  - unfold LLM_QA_CLI.key_is_set in Hk.
    destruct (environ "GROQ_API_KEY") as [key|] eqn:He; [| discriminate].
    apply negb_true_iff in Hk.
    rewrite (ServiceFacts.call_raw_run environ network key question model
               timeout He Hk).
    simpl. lia.
  - rewrite (ServiceFacts.call_raw_without_key environ network question
               model timeout Hk).
    simpl. lia.
Qed.

End Paths.

End AnswerFacts.

(** X4. [get_answer] sends at most one POST, whatever the environment, the
    network and the question are: nothing is retried. *)
Theorem get_answer_sends_at_most_one_post
    (environ : string -> option string) (network : Network)
    (question : PyVal) (model : string) (timeout : Z) :
  (List.length
     (snd (run (LLM_QA_CLI.get_answer environ network question model
                  timeout))) <= 1)%nat.
Proof.
  destruct (AnswerFacts.get_answer_cases environ network question model
              timeout) as [H | (out & log & H & Hraw)]; rewrite H.
  - simpl. lia.
  - pose proof (AnswerFacts.call_raw_log_short environ network question
                  model timeout) as Hl.
    rewrite Hraw in Hl. exact Hl.
Qed.

(** X5. Without an API key (the variable unset, or set to the empty string) a
    question that is not rejected as empty gets the result
    [{ok: False, answer: '', raw: None, error: 'GROQ_API_KEY is not set in
    environment variables.'}], and nothing is sent. *)
Theorem get_answer_without_api_key_sends_nothing
    (environ : string -> option string) (network : Network)
    (question : PyVal) (model : string) (timeout : Z) :
  LLM_QA_CLI.key_is_set (environ "GROQ_API_KEY") = false ->
  Py.truthy question = true ->
  PyStr.is_empty (PyStr.strip (Py.str question)) = false ->
  run (LLM_QA_CLI.get_answer environ network question model timeout)
  = (Ok (PDict [("ok", PBool false);
                ("answer", PStr EmptyString);
                ("raw", PNone);
                ("error",
                 PStr "GROQ_API_KEY is not set in environment variables.")]),
     []).
Proof.
  intros Hk Ht Hs.
  pose proof (ServiceFacts.call_raw_without_key environ network question
                model timeout Hk) as Hraw.
  unfold run in *. unfold LLM_QA_CLI.get_answer, try_except.
  rewrite Ht, Hs. cbn [negb orb].
  unfold LLM_QA_CLI.simple_preprocess at 1. unfold bind.
  rewrite Hraw. reflexivity.
Qed.

Lemma get_answer_without_api_key_sends_nothing_witness :
  run (LLM_QA_CLI.get_answer
         (fun name => if String.eqb name "GROQ_API_KEY"
                      then Some EmptyString else None)
         (Sample.answers_with Sample.answer_42)
         (PStr "What is 6*7?") "groq-llama3-13b" 30)
  = (Ok (PDict [("ok", PBool false);
                ("answer", PStr EmptyString);
                ("raw", PNone);
                ("error",
                 PStr "GROQ_API_KEY is not set in environment variables.")]),
     []).
Proof.
  apply get_answer_without_api_key_sends_nothing; reflexivity.
Defined.

(** X6. When [requests.post] itself raises an exception that is not an
    [HTTPError] (a timeout, a refused connection), [get_answer] returns
    [{ok: False, answer: '', raw: None, error: str(e)}]. *)
Theorem get_answer_network_failure
    (environ : string -> option string) (network : Network)
    (key : string) (question : PyVal) (model : string) (timeout : Z)
    (e : exn) :
  environ "GROQ_API_KEY" = Some key ->
  PyStr.is_empty key = false ->
  Py.truthy question = true ->
  PyStr.is_empty (PyStr.strip (Py.str question)) = false ->
  (forall call,
     In call (snd (run (LLM_QA_CLI.get_answer environ network question
                          model timeout))) ->
     network call = Raise e) ->
  is_HTTPError e = false ->
  fst (run (LLM_QA_CLI.get_answer environ network question model timeout))
  = Ok (PDict [("ok", PBool false);
               ("answer", PStr EmptyString);
               ("raw", PNone);
               ("error", PStr (message e))]).
Proof.
  intros Hk Hne Ht Hs Hnet He.
  rewrite (ServiceFacts.get_answer_run environ network key question
             model timeout Hk Hne Ht Hs) in *.
  cbn [fst snd] in *.
  rewrite (Hnet _ (or_introl eq_refl)).
  cbn [Spec.outcome_of Spec.packaged]. rewrite He. reflexivity.
Qed.

Lemma get_answer_network_failure_witness :
  fst (run (LLM_QA_CLI.get_answer Sample.environ
              (fun _ => Raise (mkExn RequestException
                                 "Read timed out. (read timeout=30)" None))
              (PStr "What is 6*7?") "groq-llama3-13b" 30))
  = Ok (PDict [("ok", PBool false);
               ("answer", PStr EmptyString);
               ("raw", PNone);
               ("error", PStr "Read timed out. (read timeout=30)")]).
Proof.
  apply (get_answer_network_failure Sample.environ
           (fun _ => Raise (mkExn RequestException
                              "Read timed out. (read timeout=30)" None))
           "gsk_test" (PStr "What is 6*7?") "groq-llama3-13b" 30
           (mkExn RequestException "Read timed out. (read timeout=30)"
              None));
    reflexivity.
Defined.

(** X7. When the response passes [raise_for_status()] but its body is not
    JSON, so that [resp.json()] raises, [get_answer] returns
    [{ok: False, answer: '', raw: None, error: <the message of that
    exception>}]: the text of the body is not reported. *)
Theorem get_answer_unparsable_body
    (environ : string -> option string) (network : Network)
    (key : string) (question : PyVal) (model : string) (timeout : Z)
    (resp : Response) (c : exn_class) (msg : string) :
  environ "GROQ_API_KEY" = Some key ->
  PyStr.is_empty key = false ->
  Py.truthy question = true ->
  PyStr.is_empty (PyStr.strip (Py.str question)) = false ->
  (forall call,
     In call (snd (run (LLM_QA_CLI.get_answer environ network question
                          model timeout))) ->
     network call = Ok resp) ->
  raise_for_status resp = None ->
  json resp = Raise (c, msg) ->
  c <> HTTPError ->
  fst (run (LLM_QA_CLI.get_answer environ network question model timeout))
  = Ok (PDict [("ok", PBool false);
               ("answer", PStr EmptyString);
               ("raw", PNone);
               ("error", PStr msg)]).
Proof.
  intros Hk Hne Ht Hs Hnet Hst Hj Hc.
  rewrite (ServiceFacts.get_answer_run environ network key question
             model timeout Hk Hne Ht Hs) in *.
  cbn [fst snd] in *.
  rewrite (Hnet _ (or_introl eq_refl)).
  cbn [Spec.outcome_of]. rewrite Hst, Hj. cbn [Spec.packaged].
  unfold is_HTTPError. cbn [cls message].
  destruct c; try reflexivity. congruence.
Qed.

Lemma get_answer_unparsable_body_witness :
  fst (run (LLM_QA_CLI.get_answer Sample.environ
              (Sample.fails_with
                 (mkResponse None
                    (Raise (OtherException,
                            "Expecting value: line 1 column 1 (char 0)"))
                    "<html>Bad gateway</html>"))
              (PStr "What is 6*7?") "groq-llama3-13b" 30))
  = Ok (PDict [("ok", PBool false);
               ("answer", PStr EmptyString);
               ("raw", PNone);
               ("error",
                PStr "Expecting value: line 1 column 1 (char 0)")]).
Proof.
  apply (get_answer_unparsable_body Sample.environ
           (Sample.fails_with
              (mkResponse None
                 (Raise (OtherException,
                         "Expecting value: line 1 column 1 (char 0)"))
                 "<html>Bad gateway</html>"))
           "gsk_test" (PStr "What is 6*7?") "groq-llama3-13b" 30
           (mkResponse None
              (Raise (OtherException,
                      "Expecting value: line 1 column 1 (char 0)"))
              "<html>Bad gateway</html>")
           OtherException "Expecting value: line 1 column 1 (char 0)");
    try reflexivity.
  discriminate.
Defined.

(** X8. An [HTTPError] that carries no response ([he.response] is [None])
    gives [raw = str(he)], with the error ["Provider HTTP error: " +
    str(he)]. *)
Theorem get_answer_http_error_without_response
    (environ : string -> option string) (network : Network)
    (key : string) (question : PyVal) (model : string) (timeout : Z)
    (msg : string) :
  environ "GROQ_API_KEY" = Some key ->
  PyStr.is_empty key = false ->
  Py.truthy question = true ->
  PyStr.is_empty (PyStr.strip (Py.str question)) = false ->
  (forall call,
     In call (snd (run (LLM_QA_CLI.get_answer environ network question
                          model timeout))) ->
     network call = Raise (mkExn HTTPError msg None)) ->
  fst (run (LLM_QA_CLI.get_answer environ network question model timeout))
  = Ok (PDict [("ok", PBool false);
               ("answer", PStr EmptyString);
               ("raw", PStr msg);
               ("error", PStr ("Provider HTTP error: " ++ msg))]).
Proof.
  intros Hk Hne Ht Hs Hnet.
  rewrite (ServiceFacts.get_answer_run environ network key question
             model timeout Hk Hne Ht Hs) in *.
  cbn [fst snd] in *.
  rewrite (Hnet _ (or_introl eq_refl)).
  reflexivity.
Qed.

Lemma get_answer_http_error_without_response_witness :
  fst (run (LLM_QA_CLI.get_answer Sample.environ
              (fun _ => Raise (mkExn HTTPError "502 Bad Gateway" None))
              (PStr "What is 6*7?") "groq-llama3-13b" 30))
  = Ok (PDict [("ok", PBool false);
               ("answer", PStr EmptyString);
               ("raw", PStr "502 Bad Gateway");
               ("error", PStr "Provider HTTP error: 502 Bad Gateway")]).
Proof.
  apply (get_answer_http_error_without_response Sample.environ
           (fun _ => Raise (mkExn HTTPError "502 Bad Gateway" None))
           "gsk_test" (PStr "What is 6*7?") "groq-llama3-13b" 30
           "502 Bad Gateway");
    reflexivity.
Defined.

(** X9. On success (the response passes [raise_for_status()] and its body
    parses to [raw]) [get_answer] returns [ok: True], the extracted text,
    [raw] itself, unchanged, [error: None] and, under [preprocessed], the
    cleaned text and the tokens of the question. *)
Theorem get_answer_success_result
    (environ : string -> option string) (network : Network)
    (key : string) (question : PyVal) (model : string) (timeout : Z)
    (resp : Response) (raw : PyVal) :
  environ "GROQ_API_KEY" = Some key ->
  PyStr.is_empty key = false ->
  Py.truthy question = true ->
  PyStr.is_empty (PyStr.strip (Py.str question)) = false ->
  (forall call,
     In call (snd (run (LLM_QA_CLI.get_answer environ network question
                          model timeout))) ->
     network call = Ok resp) ->
  raise_for_status resp = None ->
  json resp = Ok raw ->
  fst (run (LLM_QA_CLI.get_answer environ network question model timeout))
  = Ok (PDict
          [("ok", PBool true);
           ("answer", LLM_QA_CLI.assistant_text_value raw);
           ("raw", raw);
           ("error", PNone);
           ("preprocessed",
            PDict [("cleaned",
                    PStr (fst (LLM_QA_CLI.simple_preprocess question)));
                   ("tokens",
                    PList (map PStr
                             (snd (LLM_QA_CLI.simple_preprocess
                                     question))))])]).
Proof.
  intros Hk Hne Ht Hs Hnet Hst Hj.
  rewrite (ServiceFacts.get_answer_run environ network key question
             model timeout Hk Hne Ht Hs) in *.
  cbn [fst snd] in *.
  rewrite (Hnet _ (or_introl eq_refl)).
  cbn [Spec.outcome_of]. rewrite Hst, Hj. reflexivity.
Qed.

Lemma get_answer_success_result_witness :
  fst (run (LLM_QA_CLI.get_answer Sample.environ
              (Sample.answers_with Sample.legacy_answer)
              (PStr "Hello, World!") "groq-llama3-13b" 30))
  = Ok (PDict
          [("ok", PBool true);
           ("answer", PStr "legacy-answer");
           ("raw", Sample.legacy_answer);
           ("error", PNone);
           ("preprocessed",
            PDict [("cleaned", PStr "hello world");
                   ("tokens", PList [PStr "hello"; PStr "world"])])]).
Proof.
  apply (get_answer_success_result Sample.environ
           (Sample.answers_with Sample.legacy_answer) "gsk_test"
           (PStr "Hello, World!") "groq-llama3-13b" 30
           (mkResponse None (Ok Sample.legacy_answer) EmptyString)
           Sample.legacy_answer);
    reflexivity.
Defined.

(** X10. [get_answer] never raises, and its result always is a dictionary with
    the entries [ok], [answer], [raw] and [error]: when [ok] is [False] the
    answer is the empty string, the error is a message and there is no
    other entry; when [ok] is [True] the error is [None] and the entry
    [preprocessed] holds the cleaned text and the list of tokens. *)
Theorem get_answer_result_shape
    (environ : string -> option string) (network : Network)
    (question : PyVal) (model : string) (timeout : Z) :
  exists (ok : bool) (answer raw error : PyVal)
         (rest : list (string * PyVal)),
    fst (run (LLM_QA_CLI.get_answer environ network question model timeout))
    = Ok (PDict (("ok", PBool ok) :: ("answer", answer) :: ("raw", raw)
                   :: ("error", error) :: rest))
    /\ (ok = false ->
        answer = PStr EmptyString /\ rest = []
        /\ exists msg, error = PStr msg)
    /\ (ok = true ->
        error = PNone
        /\ exists cleaned tokens,
             rest = [("preprocessed",
                      PDict [("cleaned", PStr cleaned);
                             ("tokens", PList (map PStr tokens))])]).
Proof.
  destruct (AnswerFacts.get_answer_cases environ network question model
              timeout) as [H | (out & log & H & _)]; rewrite H; cbn [fst].
  - exists false, (PStr EmptyString), PNone, (PStr "Empty question."), [].
    split; [reflexivity |]. split; [| discriminate].
    intros _. repeat split. eexists. reflexivity.
  - destruct out as [raw | e]; cbn [Spec.packaged].
    + eexists true, _, _, _, _. split; [reflexivity |].
      split; [discriminate |]. intros _. split; [reflexivity |].
      eexists _, _. reflexivity.
    + destruct (is_HTTPError e).
      * eexists false, _, _, _, _. split; [reflexivity |].
        split; [| discriminate]. intros _. repeat split.
        eexists. reflexivity.
      * eexists false, _, _, _, _. split; [reflexivity |].
        split; [| discriminate]. intros _. repeat split.
        eexists. reflexivity.
Qed.

(** ** The two extractions, on every response *)

Module ShapeFacts.

(** What the extraction of [get_answer] computes once it holds a first
    choice: the response matters no further. *)
Lemma body_of_first_choice (rd : list (string * PyVal)) (c : PyVal)
    (rest : list PyVal) :
  Py.lookup "choices" rd = Some (PList (c :: rest)) ->
  LLM_QA_CLI.assistant_text_body (PDict rd)
  = LLM_QA_CLI.assistant_text_body (PDict [("choices", PList [c])]).
Proof.
  intros H. unfold LLM_QA_CLI.assistant_text_body.
  cbn [Access.get Access.bind]. rewrite H. reflexivity.
Qed.

Lemma app_body_of_first_choice (rd : list (string * PyVal)) (c : PyVal)
    (rest : list PyVal) :
  Py.lookup "choices" rd = Some (PList (c :: rest)) ->
  App.assistant_text_body (PDict rd)
  = App.assistant_text_body (PDict [("choices", PList [c])]).
Proof.
  intros H. unfold App.assistant_text_body.
  cbn [Access.get Access.bind]. rewrite H. reflexivity.
Qed.

Lemma first_choice_some (raw c : PyVal) :
  Spec.first_choice raw = Some c ->
  exists rd rest,
    raw = PDict rd /\ Py.lookup "choices" rd = Some (PList (c :: rest)).
Proof.
  destruct raw as [| | | | | |rd]; try discriminate.
  unfold Spec.first_choice.
  destruct (Py.lookup "choices" rd) as [[| | | | |[|c0 rest]|]|] eqn:E;
    intros H; try discriminate H.
  injection H as ->. exists rd, rest. auto.
Qed.

Lemma no_first_choice (raw : PyVal) :
  Spec.first_choice raw = None ->
  LLM_QA_CLI.assistant_text raw = Ok (PStr EmptyString).
Proof.
  destruct raw as [| | | | | |rd]; try reflexivity.
  unfold Spec.first_choice, LLM_QA_CLI.assistant_text,
    LLM_QA_CLI.assistant_text_body.
  cbn [Access.get Access.bind].
  destruct (Py.lookup "choices" rd) as [[| | | | |[|c0 rest]|]|];
    try discriminate; intros _; cbn [Access.bind Py.isinstance_list];
    rewrite ?andb_false_r; reflexivity.
Qed.

Lemma app_no_first_choice (raw : PyVal) :
  Spec.first_choice raw = None ->
  App.assistant_text raw = Ok (PStr EmptyString).
Proof.
  destruct raw as [| | | | | |rd]; try reflexivity.
  unfold Spec.first_choice, App.assistant_text, App.assistant_text_body.
  cbn [Access.get Access.bind].
  destruct (Py.lookup "choices" rd) as [[| | | | [|a s] |[|c0 rest]|]|];
    try discriminate; intros _; reflexivity.
Qed.

Lemma app_first_choice (raw c : PyVal) :
  Spec.first_choice raw = Some c ->
  App.assistant_text raw
  = Ok (match Spec.content_field c with
        | Some x => x
        | None => PStr EmptyString
        end).
Proof.
  intros H. apply first_choice_some in H as (rd & rest & -> & Hch).
  unfold App.assistant_text.
  rewrite (app_body_of_first_choice rd c rest Hch).
  unfold App.assistant_text_body. cbn [Access.get Py.lookup Access.bind].
  cbn [Py.string_eqb String.eqb Ascii.eqb Bool.eqb Access.getitem0
       Access.bind].
  destruct c as [| | | | | |d]; try reflexivity.
  unfold Spec.content_field. cbn [Access.get Access.bind].
  destruct (Py.lookup "message" d) as [[| | | | | |m]|];
    cbn [Access.get Access.bind Access.try_except Py.lookup];
    try reflexivity.
  destruct (Py.lookup "content" m); reflexivity.
Qed.

End ShapeFacts.

(** X11. A response without a first choice (it is not a mapping, it has no
    [choices], or [choices] is not a list with an element) gives the empty
    string, in [get_answer] and in the web server. *)
Theorem no_first_choice_gives_empty_text (raw : PyVal) :
  Spec.first_choice raw = None ->
  LLM_QA_CLI.assistant_text raw = Ok (PStr EmptyString)
  /\ App.assistant_text raw = Ok (PStr EmptyString).
Proof.
  intros H. split.
  - apply ShapeFacts.no_first_choice, H.
  - apply ShapeFacts.app_no_first_choice, H.
Qed.

Lemma no_first_choice_gives_empty_text_witness :
  LLM_QA_CLI.assistant_text
    (PDict [("error", PDict [("message", PStr "model not found")])])
  = Ok (PStr EmptyString)
  /\ App.assistant_text
       (PDict [("error", PDict [("message", PStr "model not found")])])
     = Ok (PStr EmptyString).
Proof.
  apply (no_first_choice_gives_empty_text
           (PDict [("error", PDict [("message", PStr "model not found")])])
           eq_refl).
Defined.

(** X12. Only the first choice matters: the text extracted from a response is
    the text extracted from the response reduced to [{"choices":
    [first]}], whatever the other choices and the other entries are; in
    [get_answer] and in the web server. *)
Theorem only_first_choice_matters (rd : list (string * PyVal))
    (c : PyVal) (rest : list PyVal) :
  Py.lookup "choices" rd = Some (PList (c :: rest)) ->
  LLM_QA_CLI.assistant_text (PDict rd)
  = LLM_QA_CLI.assistant_text (PDict [("choices", PList [c])])
  /\ App.assistant_text (PDict rd)
     = App.assistant_text (PDict [("choices", PList [c])]).
Proof.
  intros H. unfold LLM_QA_CLI.assistant_text, App.assistant_text.
  rewrite (ShapeFacts.body_of_first_choice rd c rest H).
  rewrite (ShapeFacts.app_body_of_first_choice rd c rest H).
  split; reflexivity.
Qed.

Lemma only_first_choice_matters_witness :
  LLM_QA_CLI.assistant_text
    (PDict [("id", PStr "cmpl-1");
            ("choices",
             PList [PDict [("text", PStr "first")];
                    PDict [("text", PStr "second")]]);
            ("usage", PDict [("total_tokens", PInt 12)])])
  = LLM_QA_CLI.assistant_text
      (PDict [("choices", PList [PDict [("text", PStr "first")]])])
  /\ App.assistant_text
       (PDict [("id", PStr "cmpl-1");
               ("choices",
                PList [PDict [("text", PStr "first")];
                       PDict [("text", PStr "second")]]);
               ("usage", PDict [("total_tokens", PInt 12)])])
     = App.assistant_text
         (PDict [("choices", PList [PDict [("text", PStr "first")]])]).
Proof.
  apply (only_first_choice_matters
           [("id", PStr "cmpl-1");
            ("choices",
             PList [PDict [("text", PStr "first")];
                    PDict [("text", PStr "second")]]);
            ("usage", PDict [("total_tokens", PInt 12)])]
           (PDict [("text", PStr "first")])
           [PDict [("text", PStr "second")]]
           eq_refl).
Defined.

(** X13. The extraction of the web server, on every response: the [content] of
    the [message] of the first choice when the response has a first choice
    that is a mapping whose [message] is a mapping with a [content], as it
    is, and the empty string in every other case. *)
Theorem web_server_extraction_on_every_response (raw : PyVal) :
  App.assistant_text raw
  = Ok (match Spec.first_choice raw with
        | Some c =>
            match Spec.content_field c with
            | Some x => x
            | None => PStr EmptyString
            end
        | None => PStr EmptyString
        end).
Proof.
  destruct (Spec.first_choice raw) as [c|] eqn:E.
  - apply ShapeFacts.app_first_choice, E.
  - apply ShapeFacts.app_no_first_choice, E.
Qed.

(** X14. The legacy shape in [get_answer]: when the first choice is a mapping
    with a [text] entry, and has no [message] that is a mapping, the
    extracted text is that entry when it is truthy and the empty string
    otherwise. *)
Theorem legacy_text_shape_extracted (raw : PyVal)
    (d : list (string * PyVal)) (t : PyVal) :
  Spec.first_choice raw = Some (PDict d) ->
  Spec.message_shape (PDict d) = false ->
  Py.lookup "text" d = Some t ->
  LLM_QA_CLI.assistant_text raw
  = Ok (if Py.truthy t then t else PStr EmptyString).
Proof.
  intros Hfirst Hm Ht.
  apply ShapeFacts.first_choice_some in Hfirst as (rd & rest & -> & Hch).
  unfold LLM_QA_CLI.assistant_text.
  rewrite (ShapeFacts.body_of_first_choice rd _ rest Hch).
  unfold LLM_QA_CLI.assistant_text_body.
  cbn [Access.get Py.lookup Py.string_eqb String.eqb Ascii.eqb Bool.eqb
       Access.bind Py.truthy Py.isinstance_list andb Access.getitem0].
  assert (Hor : Py.or_ (PDict d) (PDict []) = PDict d).
  { destruct d; [discriminate Ht | reflexivity]. }
  rewrite Hor.
  cbn [Access.contains Access.getitem Access.bind].
  unfold Spec.message_shape, Py.has_key in *.
  destruct (Py.lookup "message" d) as [[]|]; try discriminate Hm;
    cbn [Access.bind Py.isinstance_dict Access.get];
    rewrite Ht; reflexivity.
Qed.

Lemma legacy_text_shape_extracted_witness :
  LLM_QA_CLI.assistant_text
    (PDict [("choices",
             PList [PDict [("message", PStr "not a mapping");
                           ("text", PStr "legacy-answer")]])])
  = Ok (PStr "legacy-answer").
Proof.
  apply (legacy_text_shape_extracted
           (PDict [("choices",
                    PList [PDict [("message", PStr "not a mapping");
                                  ("text", PStr "legacy-answer")]])])
           [("message", PStr "not a mapping");
            ("text", PStr "legacy-answer")]
           (PStr "legacy-answer") eq_refl eq_refl eq_refl).
Defined.

(** X15. Where the two pipelines agree: on a first choice of the message-based
    shape whose [content] is absent, truthy or the empty string, the web
    server extracts the same text as [get_answer]. *)
Theorem extractions_agree_on_message_shape (raw c : PyVal) :
  Spec.first_choice raw = Some c ->
  Spec.message_shape c = true ->
  (forall x, Spec.content_field c = Some x ->
             Py.truthy x = true \/ x = PStr EmptyString) ->
  App.assistant_text raw = LLM_QA_CLI.assistant_text raw.
Proof.
  intros Hfirst Hshape Hcontent.
  rewrite (ShapeFacts.app_first_choice raw c Hfirst).
  apply ShapeFacts.first_choice_some in Hfirst as (rd & rest & -> & Hch).
  destruct c as [| | | | | |d]; try discriminate Hshape.
  unfold Spec.message_shape in Hshape. unfold Spec.content_field in *.
  destruct (Py.lookup "message" d) as [[| | | | | |m]|] eqn:Hm;
    try discriminate Hshape.
  rewrite (ExtractionFacts.message_content rd d m rest Hch Hm).
  destruct (Py.lookup "content" m) as [x|]; [| reflexivity].
  destruct (Hcontent x eq_refl) as [Hx | ->].
  - unfold Py.or_. rewrite Hx. reflexivity.
  - reflexivity.
Qed.

Lemma extractions_agree_on_message_shape_witness :
  App.assistant_text Sample.answer_42
  = LLM_QA_CLI.assistant_text Sample.answer_42.
Proof.
  apply (extractions_agree_on_message_shape Sample.answer_42
           (PDict [("message", PDict [("content", PStr "42")])])
           eq_refl eq_refl).
  intros x H. injection H as <-. left. reflexivity.
Defined.

(** ** The web server *)

Module RouteFacts.

Import Spec Words AppRoutes.

Section Routes.

Variable environ : string -> option string.
Variable network : Network.

Lemma call_groq_chat_run (question : PyVal) (model : string)
    (timeout : Z) :
  run (App.call_groq_chat environ network question model timeout)
  = (match outcome_of (network (web_call environ question model timeout))
     with
     | Ok data =>
         Ok (PDict [("raw", data);
                    ("answer", App.assistant_text_value data)])
     | Raise e => Raise e
     end,
     [web_call environ question model timeout]).
Proof.
  unfold run, App.call_groq_chat, bind, post, web_call. cbn [app].
  destruct (network _) as [resp | e]; cbn [outcome_of]; auto.
  unfold check_status, parse_json.
  destruct (raise_for_status resp); cbn; auto.
  destruct (json resp) as [v | [c msg]]; reflexivity.
Qed.

(** [ask] on a mapping that has a question *)
Lemma ask_run (d : list (string * PyVal)) (question : PyVal) :
  Py.lookup "question" d = Some question ->
  run (ask environ network (PDict d))
  = (Ok (answered environ
           (outcome_of
              (network (web_call environ question
                          (App.GROQ_MODEL environ) 30)))),
     [web_call environ question (App.GROQ_MODEL environ) 30]).
Proof.
  intros Hq.
  pose proof (call_groq_chat_run question (App.GROQ_MODEL environ) 30)
    as Hrun.
  unfold run in *. unfold ask.
  assert (Ht : Py.truthy (PDict d) = true).
  { destruct d; [discriminate Hq | reflexivity]. }
  rewrite Ht. cbn [negb Access.contains Access.bind].
  unfold Py.has_key. rewrite Hq. cbn [negb Access.getitem]. rewrite Hq.
  unfold try_except, bind. rewrite Hrun.
  destruct (outcome_of _) as [data | e]; cbn [answered].
  - reflexivity.
  - cbn [dispatch]. destruct (is_RequestException e); reflexivity.
Qed.

(** [ask] on a mapping without a question, the empty one included *)
Lemma ask_without_question (d : list (string * PyVal)) :
  Py.lookup "question" d = None ->
  run (ask environ network (PDict d))
  = (Ok (Responds
           (PDict [("ok", PBool false);
                   ("error", PStr "Missing 'question' in request body.")])
           400),
     []).
Proof.
  intros Hq. unfold run, ask.
  destruct d as [|kv d']; [reflexivity |].
  cbn [Py.truthy negb Access.contains Access.bind].
  unfold Py.has_key. rewrite Hq. reflexivity.
Qed.

End Routes.

End RouteFacts.

(** X16. [POST /ask] with a body that is not JSON ([None]), is falsy, or is a
    mapping, a list or a string that does not contain ["question"], is
    answered with status 400 and
    [{ok: False, error: "Missing 'question' in request body."}], and
    nothing is sent to the provider. *)
Theorem ask_missing_question_is_400
    (environ : string -> option string) (network : Network)
    (body : PyVal) :
  Py.truthy body = false \/ Access.contains "question" body = Ok false ->
  run (AppRoutes.ask environ network body)
  = (Ok (AppRoutes.Responds
           (PDict [("ok", PBool false);
                   ("error", PStr "Missing 'question' in request body.")])
           400),
     []).
Proof.
  intros H. unfold run, AppRoutes.ask.
  destruct (Py.truthy body) eqn:Ht; cbn [negb].
  - destruct H as [H | H]; [discriminate H |].
    rewrite H. reflexivity.
  - reflexivity.
Qed.

Lemma ask_missing_question_is_400_witness :
  run (AppRoutes.ask Sample.environ (Sample.answers_with Sample.answer_42)
         (PDict [("prompt", PStr "What is 6*7?")]))
  = (Ok (AppRoutes.Responds
           (PDict [("ok", PBool false);
                   ("error", PStr "Missing 'question' in request body.")])
           400),
     []).
Proof.
  apply ask_missing_question_is_400. right. reflexivity.
Defined.

(** X17. [POST /ask] with a mapping that has a [question] sends exactly one
    POST to the provider, with the default model, the timeout 30 and the
    value of [question] as the user content, whatever that value is: the
    web server does not reject an empty or blank question. *)
Theorem ask_sends_the_question_as_it_is
    (environ : string -> option string) (network : Network)
    (d : list (string * PyVal)) (question : PyVal) :
  Py.lookup "question" d = Some question ->
  snd (run (AppRoutes.ask environ network (PDict d)))
  = [mkPost "https://api.groq.com/openai/v1/chat/completions"
       [("Authorization",
         "Bearer " ++ LLM_QA_CLI.format_key (environ "GROQ_API_KEY"));
        ("Content-Type", "application/json")]
       (PDict [("model",
                PStr (match environ "GROQ_MODEL" with
                      | Some m => m
                      | None => "groq-llama3-13b"
                      end));
               ("messages",
                PList [PDict [("role", PStr "system");
                              ("content",
                               PStr "You are a helpful assistant.")];
                       PDict [("role", PStr "user");
                              ("content", question)]]);
               ("temperature", PFloat "0.2");
               ("max_tokens", PInt 512)])
       30].
Proof.
  intros Hq.
  rewrite (RouteFacts.ask_run environ network d question Hq).
  reflexivity.
Qed.

Lemma ask_sends_the_question_as_it_is_witness :
  map post_json
    (snd (run (AppRoutes.ask Sample.environ
                 (Sample.answers_with Sample.answer_42)
                 (PDict [("question", PStr "   ")]))))
  = [PDict [("model", PStr "groq-llama3-13b");
            ("messages",
             PList [PDict [("role", PStr "system");
                           ("content", PStr "You are a helpful assistant.")];
                    PDict [("role", PStr "user");
                           ("content", PStr "   ")]]);
            ("temperature", PFloat "0.2");
            ("max_tokens", PInt 512)]].
Proof.
  rewrite (ask_sends_the_question_as_it_is Sample.environ
             (Sample.answers_with Sample.answer_42)
             [("question", PStr "   ")] (PStr "   ") eq_refl).
  reflexivity.
Defined.

(** X18. [POST /ask], when the provider's response passes
    [raise_for_status()] and parses to [data]: status 200 with
    [{ok: True, answer: <the text extracted from data>, meta: {model:
    GROQ_MODEL}}]. *)
Theorem ask_success_is_200
    (environ : string -> option string) (network : Network)
    (d : list (string * PyVal)) (question : PyVal)
    (resp : Response) (data : PyVal) :
  Py.lookup "question" d = Some question ->
  (forall call,
     In call (snd (run (AppRoutes.ask environ network (PDict d)))) ->
     network call = Ok resp) ->
  raise_for_status resp = None ->
  json resp = Ok data ->
  fst (run (AppRoutes.ask environ network (PDict d)))
  = Ok (AppRoutes.Responds
          (PDict [("ok", PBool true);
                  ("answer", App.assistant_text_value data);
                  ("meta",
                   PDict [("model", PStr (App.GROQ_MODEL environ))])])
          200).
Proof.
  intros Hq Hnet Hst Hj.
  rewrite (RouteFacts.ask_run environ network d question Hq) in *.
  cbn [fst snd] in *.
  rewrite (Hnet _ (or_introl eq_refl)).
  cbn [Spec.outcome_of]. rewrite Hst, Hj. reflexivity.
Qed.

Lemma ask_success_is_200_witness :
  fst (run (AppRoutes.ask Sample.environ
              (Sample.answers_with Sample.answer_42)
              (PDict [("question", PStr "What is 6*7?")])))
  = Ok (AppRoutes.Responds
          (PDict [("ok", PBool true);
                  ("answer", PStr "42");
                  ("meta", PDict [("model", PStr "groq-llama3-13b")])])
          200).
Proof.
  apply (ask_success_is_200 Sample.environ
           (Sample.answers_with Sample.answer_42)
           [("question", PStr "What is 6*7?")] (PStr "What is 6*7?")
           (mkResponse None (Ok Sample.answer_42) EmptyString)
           Sample.answer_42);
    reflexivity.
Defined.

(** X19. [POST /ask], when the provider answers with an error status
    ([raise_for_status()] raises an [HTTPError] with message [msg]):
    status 502 with [{ok: False, error: "API request failed", details:
    msg}]; the body of the provider's error is not passed on. *)
Theorem ask_provider_error_is_502
    (environ : string -> option string) (network : Network)
    (d : list (string * PyVal)) (question : PyVal)
    (resp : Response) (msg : string) :
  Py.lookup "question" d = Some question ->
  (forall call,
     In call (snd (run (AppRoutes.ask environ network (PDict d)))) ->
     network call = Ok resp) ->
  raise_for_status resp = Some msg ->
  fst (run (AppRoutes.ask environ network (PDict d)))
  = Ok (AppRoutes.Responds
          (PDict [("ok", PBool false);
                  ("error", PStr "API request failed");
                  ("details", PStr msg)])
          502).
Proof.
  intros Hq Hnet Hst.
  rewrite (RouteFacts.ask_run environ network d question Hq) in *.
  cbn [fst snd] in *.
  rewrite (Hnet _ (or_introl eq_refl)).
  cbn [Spec.outcome_of]. rewrite Hst. reflexivity.
Qed.

Lemma ask_provider_error_is_502_witness :
  fst (run (AppRoutes.ask Sample.environ
              (Sample.fails_with Sample.too_many_requests)
              (PDict [("question", PStr "What is 6*7?")])))
  = Ok (AppRoutes.Responds
          (PDict [("ok", PBool false);
                  ("error", PStr "API request failed");
                  ("details",
                   PStr "429 Client Error: Too Many Requests for url: https://api.groq.com/openai/v1/chat/completions")])
          502).
Proof.
  apply (ask_provider_error_is_502 Sample.environ
           (Sample.fails_with Sample.too_many_requests)
           [("question", PStr "What is 6*7?")] (PStr "What is 6*7?")
           Sample.too_many_requests
           "429 Client Error: Too Many Requests for url: https://api.groq.com/openai/v1/chat/completions");
    reflexivity.
Defined.

(** X20. [POST /ask], when [requests.post] itself raises [e]: status 502 with
    the error ["API request failed"] when [e] is a [RequestException]
    (a timeout, a refused connection, an [HTTPError]), status 500 with
    ["Internal server error"] otherwise; [details] is [str(e)] in both. *)
Theorem ask_exception_is_502_or_500
    (environ : string -> option string) (network : Network)
    (d : list (string * PyVal)) (question : PyVal) (e : exn) :
  Py.lookup "question" d = Some question ->
  (forall call,
     In call (snd (run (AppRoutes.ask environ network (PDict d)))) ->
     network call = Raise e) ->
  fst (run (AppRoutes.ask environ network (PDict d)))
  = Ok (AppRoutes.Responds
          (PDict [("ok", PBool false);
                  ("error",
                   PStr (match cls e with
                         | HTTPError | RequestException =>
                             "API request failed"
                         | RuntimeError | OtherException =>
                             "Internal server error"
                         end));
                  ("details", PStr (message e))])
          (match cls e with
           | HTTPError | RequestException => 502
           | RuntimeError | OtherException => 500
           end)).
Proof.
  intros Hq Hnet.
  rewrite (RouteFacts.ask_run environ network d question Hq) in *.
  cbn [fst snd] in *.
  rewrite (Hnet _ (or_introl eq_refl)).
  cbn [Spec.outcome_of Words.answered].
  unfold AppRoutes.is_RequestException. destruct (cls e); reflexivity.
Qed.

Lemma ask_exception_is_502_or_500_witness :
  fst (run (AppRoutes.ask Sample.environ
              (fun _ => Raise (mkExn RequestException
                                 "Read timed out. (read timeout=30)" None))
              (PDict [("question", PStr "What is 6*7?")])))
  = Ok (AppRoutes.Responds
          (PDict [("ok", PBool false);
                  ("error", PStr "API request failed");
                  ("details", PStr "Read timed out. (read timeout=30)")])
          502).
Proof.
  apply (ask_exception_is_502_or_500 Sample.environ
           (fun _ => Raise (mkExn RequestException
                              "Read timed out. (read timeout=30)" None))
           [("question", PStr "What is 6*7?")] (PStr "What is 6*7?")
           (mkExn RequestException "Read timed out. (read timeout=30)"
              None));
    reflexivity.
Defined.

(** X21. [POST /ask] with a JSON object always gets a response of the view,
    with status 200, 400, 502 or 500: no exception leaves the view. *)
Theorem ask_answers_every_mapping
    (environ : string -> option string) (network : Network)
    (d : list (string * PyVal)) :
  exists (body : PyVal) (status : Z),
    fst (run (AppRoutes.ask environ network (PDict d)))
    = Ok (AppRoutes.Responds body status)
    /\ (status = 200 \/ status = 400 \/ status = 502 \/ status = 500)%Z.
Proof.
  destruct (Py.lookup "question" d) as [question|] eqn:Hq.
  - rewrite (RouteFacts.ask_run environ network d question Hq).
    cbn [fst]. destruct (Spec.outcome_of _) as [data | e];
      cbn [Words.answered].
    + eexists _, _. split; [reflexivity | auto].
    + destruct (AppRoutes.is_RequestException e);
        eexists _, _; (split; [reflexivity | auto]).
  - rewrite (RouteFacts.ask_without_question environ network d Hq).
    eexists _, _. split; [reflexivity | auto].
Qed.

(** X22. [POST /ask] with a truthy JSON body that is not an object and is not
    answered 400 (a number, [true], a string or a list that contains
    ["question"]): the test ["question" not in body] or the access
    [body["question"]] raises a [TypeError] outside the [try], so it
    leaves the view, and nothing is sent. *)
Theorem ask_non_mapping_body_raises_type_error
    (environ : string -> option string) (network : Network)
    (body : PyVal) :
  Py.truthy body = true ->
  Py.isinstance_dict body = false ->
  Access.contains "question" body <> Ok false ->
  run (AppRoutes.ask environ network body)
  = (Ok (AppRoutes.Escapes TypeError), []).
Proof.
  intros Ht Hd Hc. unfold run, AppRoutes.ask. rewrite Ht. cbn [negb].
  destruct body; try discriminate Hd; try reflexivity;
    cbn [Access.contains Access.bind] in *.
  - destruct (PyStr.contains "question" s); [reflexivity | congruence].
  - destruct (existsb (Py.eq_str "question") items);
      [reflexivity | congruence].
Qed.

Lemma ask_non_mapping_body_raises_type_error_witness :
  run (AppRoutes.ask Sample.environ (Sample.answers_with Sample.answer_42)
         (PList [PStr "question"; PStr "What is 6*7?"]))
  = (Ok (AppRoutes.Escapes TypeError), []).
Proof.
  apply ask_non_mapping_body_raises_type_error;
    [reflexivity | reflexivity | discriminate].
Defined.

(** ** The interactive loop *)

Module CliFacts.

Import Spec Words Cli.

Section Loop.

Variable environ : string -> option string.
Variable network : Network.
Variable dumps_indent_2 : PyVal -> option string.
Variable stdout_ok : list output -> output -> bool.

(** The calls of [get_answer] come after those already in the log. *)
Lemma get_answer_frame (question : PyVal) (model : string) (timeout : Z)
    (log : list PostCall) :
  LLM_QA_CLI.get_answer environ network question model timeout log
  = (fst (run (LLM_QA_CLI.get_answer environ network question model
                 timeout)),
     (log ++ snd (run (LLM_QA_CLI.get_answer environ network question
                         model timeout)))%list).
Proof.
  unfold run, LLM_QA_CLI.get_answer, try_except.
  destruct (negb (Py.truthy question)
            || PyStr.is_empty (PyStr.strip (Py.str question))).
  - cbn. rewrite app_nil_r. reflexivity.
  - unfold LLM_QA_CLI.simple_preprocess at 1 2 3.
    unfold bind, LLM_QA_CLI._call_groq_chat_raw.
    destruct (negb (LLM_QA_CLI.key_is_set (LLM_QA_CLI.GROQ_API_KEY environ))).
    + cbn. rewrite app_nil_r. reflexivity.
    + unfold bind, post. cbn [app].
      destruct (network _) as [resp | e].
      * unfold check_status, parse_json.
        destruct (raise_for_status resp).
        -- cbn. reflexivity.
        -- cbn. destruct (json resp) as [v | [c msg]]; cbn.
           ++ reflexivity.
           ++ destruct (is_HTTPError _); reflexivity.
      * cbn [dispatch]. destruct (is_HTTPError e); reflexivity.
Qed.

Lemma report_rejection :
  fails_by_write_only stdout_ok
    (report dumps_indent_2 stdout_ok LLM_QA_CLI.empty_question).
Proof.
  intros out.
  unfold report, print, print2; unfold pbind, access, emit, ptry, pret; cbn.
  split_writes stdout_ok; settle_writes stdout_ok.
Qed.

Lemma report_packaged (question : PyVal) (o : result exn PyVal) :
  fails_by_write_only stdout_ok
    (report dumps_indent_2 stdout_ok (packaged question o)).
Proof.
  intros out. destruct o as [raw | e]; cbn [packaged].
  - unfold report, print, print2; unfold pbind, access, emit, ptry, pret; cbn.
    split_writes stdout_ok; settle_writes stdout_ok.
  - destruct (is_HTTPError e).
    + unfold report, print, print2; unfold pbind, access, emit, ptry, pret; cbn.
      match goal with |- context [Py.truthy ?b] =>
        destruct (Py.truthy b) end;
      try match goal with |- context [dumps_indent_2 ?v] =>
        destruct (dumps_indent_2 v) end;
      cbn; split_writes stdout_ok; settle_writes stdout_ok.
    + unfold report, print, print2; unfold pbind, access, emit, ptry, pret; cbn.
      split_writes stdout_ok; settle_writes stdout_ok.
Qed.

Lemma report_of_get_answer (question : PyVal) (model : string)
    (timeout : Z) (result : PyVal) :
  fst (run (LLM_QA_CLI.get_answer environ network question model timeout))
  = Ok result ->
  fails_by_write_only stdout_ok (report dumps_indent_2 stdout_ok result).
Proof.
  destruct (AnswerFacts.get_answer_cases environ network question model
              timeout) as [H | (o & log & H & _)];
    rewrite H; cbn [fst]; intros E; injection E as <-.
  - apply report_rejection.
  - apply report_packaged.
Qed.

Lemma print_fails_by_write_only (s : string) :
  fails_by_write_only stdout_ok (print stdout_ok s).
Proof.
  intros out. unfold print; unfold pbind, emit.
  split_writes stdout_ok; settle_writes stdout_ok.
Qed.

(** The run of the loop: it sends the calls of the questions asked, in
    order, up to where it ends, and it ends by [break], by [sys.exit(0)],
    by the [EOFError] of [input()] or by a failed write. *)
Lemma loop_run (inputs : list keyboard) (out : list output)
    (log : list PostCall) :
  exists e out' part more,
    loop environ network dumps_indent_2 stdout_ok inputs out log
    = (e, out', (log ++ part)%list)
    /\ sent environ network inputs = (part ++ more)%list
    /\ (e = Returned \/ e = Exit 0 \/ e = RaisedEOFError
        \/ e = RaisedCrash WriteError)
    /\ (always_writes stdout_ok ->
        (e = Returned \/ e = Exit 0 \/ e = RaisedEOFError) /\ more = []).
Proof.
  revert out log. induction inputs as [|k rest IH]; intros out log.
  - cbn [loop]. unfold emit.
    destruct (stdout_ok out (Prompt (nl ++ "> "))) eqn:E.
    + exists RaisedEOFError, (out ++ [Prompt (nl ++ "> ")])%list, [], [].
      rewrite app_nil_r. repeat split; auto.
    + exists (RaisedCrash WriteError), out, [], [].
      rewrite app_nil_r. repeat split; auto;
        rewrite (H out (Prompt (nl ++ "> "))) in E; discriminate E.
  - cbn [loop]. unfold emit at 1.
    destruct (stdout_ok out (Prompt (nl ++ "> "))) eqn:E.
    2:{ exists (RaisedCrash WriteError), out, [], (sent environ network
                                                     (k :: rest)).
        rewrite app_nil_r. repeat split; auto;
          rewrite (H out (Prompt (nl ++ "> "))) in E; discriminate E. }
    set (out1 := (out ++ [Prompt (nl ++ "> ")])%list).
    destruct k as [l |].
    + unfold sent. cbn [asked].
      destruct (PyStr.is_empty (PyStr.strip l)).
      * destruct (print_fails_by_write_only
                    "Please type a non-empty question (or 'quit' to exit)."
                    out1) as (r & out2 & Hp & Hr & Hok).
        rewrite Hp. destruct Hr as [-> | ->].
        -- apply IH.
        -- eexists (RaisedCrash WriteError), out2, [], _.
           rewrite app_nil_r. split; [reflexivity |].
           split; [reflexivity |]. split; [auto |].
           intros Hall. discriminate (Hok Hall).
      * destruct (is_quit (PyStr.strip l)).
        -- unfold finish.
           destruct (print_fails_by_write_only "Goodbye." out1)
             as (r & out2 & Hp & Hr & Hok).
           rewrite Hp. destruct Hr as [-> | ->].
           ++ exists Returned, out2, [], []. rewrite app_nil_r.
              repeat split; auto.
           ++ exists (RaisedCrash WriteError), out2, [], [].
              rewrite app_nil_r. repeat split; auto;
                discriminate (Hok H).
        -- rewrite get_answer_frame.
           destruct (ServiceFacts.get_answer_never_raises environ network
                       (PStr (PyStr.strip l))
                       (LLM_QA_CLI.GROQ_MODEL environ) 30) as [result Hres].
           rewrite Hres.
           destruct (report_of_get_answer _ _ _ result Hres out1)
             as (r & out2 & Hp & Hr & Hok).
           rewrite Hp. cbn [map concat].
           set (calls := snd (run (LLM_QA_CLI.get_answer environ network
                                     (PStr (PyStr.strip l))
                                     (LLM_QA_CLI.GROQ_MODEL environ) 30))).
           destruct Hr as [-> | ->].
           ++ destruct (IH out2 (log ++ calls)%list)
                as (e & out3 & part & more & Hloop & Hsent & He & Hall).
              exists e, out3, (calls ++ part)%list, more.
              rewrite Hloop. unfold sent in Hsent. rewrite Hsent.
              rewrite !app_assoc. auto.
           ++ eexists (RaisedCrash WriteError), out2, calls, _.
              split; [reflexivity |]. split; [reflexivity |].
              split; [auto |]. intros Hall. discriminate (Hok Hall).
    + unfold finish, sent. cbn [asked map concat].
      destruct (print_fails_by_write_only (nl ++ "Interrupted. Goodbye.")
                  out1) as (r & out2 & Hp & Hr & Hok).
      rewrite Hp. destruct Hr as [-> | ->].
      * exists (Exit 0), out2, [], []. rewrite app_nil_r.
        repeat split; auto.
      * exists (RaisedCrash WriteError), out2, [], [].
        rewrite app_nil_r. repeat split; auto; discriminate (Hok H).
Qed.

(** What is typed after a line that reads quit or exit, or after an
    interrupt, is not read. *)
Lemma loop_stops (pre post : list keyboard) (k : keyboard)
    (out : list output) (log : list PostCall) :
  match k with
  | Line l => is_quit (PyStr.strip l) = true
  | CtrlC => True
  end ->
  loop environ network dumps_indent_2 stdout_ok (pre ++ k :: post) out log
  = loop environ network dumps_indent_2 stdout_ok (pre ++ [k]) out log.
Proof.
  intros Hk. revert out log.
  induction pre as [|p pre IH]; intros out log.
  - cbn [app loop].
    destruct (emit stdout_ok (Prompt (nl ++ "> ")) out) as [[u | c] out1];
      [| reflexivity].
    destruct k as [l |]; [| reflexivity].
    rewrite Hk.
    destruct (PyStr.is_empty (PyStr.strip l)) eqn:E; [| reflexivity].
    unfold is_quit in Hk. destruct (PyStr.strip l); discriminate.
  - cbn [app loop].
    destruct (emit stdout_ok (Prompt (nl ++ "> ")) out) as [[u | c] out1];
      [| reflexivity].
    destruct p as [l |]; [| reflexivity].
    destruct (PyStr.is_empty (PyStr.strip l)).
    + destruct (print stdout_ok _ out1) as [[u' | c] out2];
        [apply IH | reflexivity].
    + destruct (is_quit (PyStr.strip l)); [reflexivity |].
      destruct (LLM_QA_CLI.get_answer _ _ _ _ _ _) as [[result | e] log'];
        [| reflexivity].
      destruct (report _ _ _ _) as [[u' | f] out']; [apply IH | reflexivity].
Qed.

(** Every question asked is a stripped line that is not blank. *)
Lemma asked_not_blank (inputs : list keyboard) :
  Forall (fun q => PyStr.is_empty (PyStr.strip q) = false
                   /\ PyStr.is_empty q = false)
    (asked inputs).
Proof.
  induction inputs as [|k rest IH]; [constructor |].
  destruct k as [l |]; [| constructor].
  cbn [asked].
  destruct (PyStr.is_empty (PyStr.strip l)) eqn:E; [exact IH |].
  destruct (is_quit (PyStr.strip l)); [constructor |].
  constructor; [| exact IH].
  rewrite PyStrFacts.strip_idempotent. auto.
Qed.

End Loop.

End CliFacts.


(** X24. With an API key configured, the interactive loop sends at most
    one POST for each question asked, in the order they are typed: the
    calls it sends are the first ones of the list that has, for each
    question, the POST whose user content is the line stripped of the
    whitespace around it, with the model [GROQ_MODEL] and the timeout 30;
    they are the whole list when standard output takes every write.
    Blank lines, and what follows quit, exit or an interrupt, send
    nothing. *)
Theorem cli_sends_one_post_per_question
    (environ : string -> option string) (network : Network)
    (dumps_indent_2 : PyVal -> option string)
    (stdout_ok : list Cli.output -> Cli.output -> bool)
    (key : string) (inputs : list Cli.keyboard) :
  environ "GROQ_API_KEY" = Some key ->
  PyStr.is_empty key = false ->
  let posts :=
    map (fun question =>
           mkPost (LLM_QA_CLI.CHAT_COMPLETIONS_URL environ)
             [("Authorization", "Bearer " ++ key);
              ("Content-Type", "application/json")]
             (PDict [("model", PStr (LLM_QA_CLI.GROQ_MODEL environ));
                     ("messages",
                      PList [PDict [("role", PStr "system");
                                    ("content",
                                     PStr "You are a helpful assistant.")];
                             PDict [("role", PStr "user");
                                    ("content", PStr question)]]);
                     ("temperature", PFloat "0.2");
                     ("max_tokens", PInt 512)])
             30)
      (Words.asked inputs) in
  (exists more,
     posts
     = (snd (Cli._interactive_cli environ network dumps_indent_2 stdout_ok
               inputs) ++ more)%list)
  /\ (Words.always_writes stdout_ok ->
      snd (Cli._interactive_cli environ network dumps_indent_2 stdout_ok
             inputs) = posts).
Proof.
  intros Hk Hne posts.
  assert (Hsent : Words.sent environ network inputs = posts).
  { unfold Words.sent, posts.
    pose proof (CliFacts.asked_not_blank inputs) as Hall.
    induction Hall as [|q qs [Hs Hq] _ IH]; [reflexivity |].
    cbn [map concat].
    rewrite (ServiceFacts.get_answer_run environ network key (PStr q)
               (LLM_QA_CLI.GROQ_MODEL environ) 30 Hk Hne).
    - cbn [snd app]. rewrite IH. reflexivity.
    - cbn [Py.truthy]. rewrite Hq. reflexivity.
    - exact Hs. }
  unfold Cli._interactive_cli, Cli.print_banner, Cli.pbind, Cli.emit.
  destruct (stdout_ok [] Cli.WriteBanner) eqn:E1; cbn [app].
  - destruct (stdout_ok [Cli.WriteBanner] (Cli.Write Cli.nl)) eqn:E2.
    + destruct (CliFacts.loop_run environ network dumps_indent_2 stdout_ok
                  inputs [Cli.WriteBanner; Cli.Write Cli.nl] [])
        as (e & out & part & more & H & Hs & _ & Hall).
      rewrite H. cbn [snd app]. rewrite <- Hsent, Hs. split.
      * exists more. reflexivity.
      * intros Hw. destruct (Hall Hw) as [_ ->].
        rewrite app_nil_r. reflexivity.
    + cbn [snd]. split.
      * exists posts. reflexivity.
      * intros Hw. rewrite (Hw _ _) in E2. discriminate E2.
  - cbn [snd]. split.
    + exists posts. reflexivity.
    + intros Hw. rewrite (Hw _ _) in E1. discriminate E1.
Qed.

Lemma cli_sends_one_post_per_question_witness :
  map post_json
    (snd (Cli._interactive_cli Sample.environ
            (Sample.answers_with Sample.answer_42) (fun _ => None)
            (fun _ _ => true)
            [Cli.Line "   "; Cli.Line "  What is 6*7? ";
             Cli.Line " Quit "; Cli.Line "never read"]))
  = [PDict [("model", PStr "groq-llama3-13b");
            ("messages",
             PList [PDict [("role", PStr "system");
                           ("content", PStr "You are a helpful assistant.")];
                    PDict [("role", PStr "user");
                           ("content", PStr "What is 6*7?")]]);
            ("temperature", PFloat "0.2");
            ("max_tokens", PInt 512)]].
Proof.
  destruct (cli_sends_one_post_per_question Sample.environ
              (Sample.answers_with Sample.answer_42) (fun _ => None)
              (fun _ _ => true) "gsk_test"
              [Cli.Line "   "; Cli.Line "  What is 6*7? ";
               Cli.Line " Quit "; Cli.Line "never read"]
              eq_refl eq_refl) as [_ H].
  rewrite (H (fun _ _ => eq_refl)). reflexivity.
Defined.

(** X25. What is typed after a line that reads quit or exit (in any case,
    with any whitespace around) or after an interrupt is never read: the
    run of the loop is the run on the input cut there. *)
Theorem cli_reads_nothing_after_the_end
    (environ : string -> option string) (network : Network)
    (dumps_indent_2 : PyVal -> option string)
    (stdout_ok : list Cli.output -> Cli.output -> bool)
    (pre post : list Cli.keyboard) (k : Cli.keyboard) :
  match k with
  | Cli.Line l => Cli.is_quit (PyStr.strip l) = true
  | Cli.CtrlC => True
  end ->
  Cli._interactive_cli environ network dumps_indent_2 stdout_ok
    (pre ++ k :: post)
  = Cli._interactive_cli environ network dumps_indent_2 stdout_ok
      (pre ++ [k]).
Proof.
  intros Hk. unfold Cli._interactive_cli.
  destruct (Cli.print_banner stdout_ok []) as [[u | c] out];
    [| reflexivity].
  apply CliFacts.loop_stops, Hk.
Qed.

Lemma cli_reads_nothing_after_the_end_witness :
  Cli._interactive_cli Sample.environ
    (Sample.answers_with Sample.answer_42) (fun _ => None)
    (fun _ _ => true)
    ([Cli.Line "hello"] ++ Cli.Line "  EXIT " :: [Cli.Line "What is 6*7?"])
  = Cli._interactive_cli Sample.environ
      (Sample.answers_with Sample.answer_42) (fun _ => None)
      (fun _ _ => true)
      ([Cli.Line "hello"] ++ [Cli.Line "  EXIT "]).
Proof.
  apply (cli_reads_nothing_after_the_end Sample.environ
           (Sample.answers_with Sample.answer_42) (fun _ => None)
           (fun _ _ => true)
           [Cli.Line "hello"] [Cli.Line "What is 6*7?"]
           (Cli.Line "  EXIT ")).
  reflexivity.
Defined.

(** ** The text normalizer beyond U+00FF *)

Module WideFacts.

Import Wide.

Lemma chr_ord (a : ascii) : PyChar.chr (PyChar.ord a) = a.
Proof. apply ascii_N_embedding. Qed.

Lemma ord_small (a : ascii) : N.leb (PyChar.ord a) 255 = true.
Proof.
  apply N.leb_le. pose proof (N_ascii_bounded a) as H.
  unfold PyChar.ord. lia.
Qed.

(** What [lower()] gives is its own lowercase form, and is no uppercase
    letter when it is below U+0100. *)
Lemma lower_char_settled (n : N) :
  N.eqb (lower_char (lower_char n)) (lower_char n)
  && (negb (N.leb (lower_char n) 255) || negb (isupper (lower_char n)))
  = true.
Proof.
  unfold lower_char at 2 3 4 5, isupper.
  destruct (N.leb n 255) eqn:E.
  - unfold lower_char. rewrite ord_small, chr_ord.
    rewrite PyCharFacts.lower_idempotent, PyCharFacts.lower_not_upper.
    rewrite N.eqb_refl. reflexivity.
  - unfold lower_char. rewrite E, N.eqb_refl. reflexivity.
Qed.

Section Kept.

Variable p : N -> bool.
Hypothesis p_space : p space = true.

Lemma kept_filter (f : N -> bool) (s : list N) :
  forallb p s = true -> forallb p (filter f s) = true.
Proof.
  induction s as [|c r IH]; simpl; auto.
  intros H. apply andb_true_iff in H as [Hc Hr].
  destruct (f c); simpl; auto. rewrite Hc. simpl. auto.
Qed.

Lemma kept_sub_ws_from (b : bool) (s : list N) :
  forallb p s = true -> forallb p (sub_ws_from b s) = true.
Proof.
  revert b. induction s as [|c r IH]; simpl; auto.
  intros b H. apply andb_true_iff in H as [Hc Hr].
  destruct (isspace c).
  - destruct b; simpl; auto. rewrite p_space. simpl. auto.
  - simpl. rewrite Hc. simpl. auto.
Qed.

Lemma kept_lstrip (s : list N) :
  forallb p s = true -> forallb p (lstrip s) = true.
Proof.
  induction s as [|c r IH]; simpl; auto.
  intros H. destruct (isspace c); [| exact H].
  apply andb_true_iff in H as [_ Hr]. auto.
Qed.

Lemma kept_rstrip (s : list N) :
  forallb p s = true -> forallb p (rstrip s) = true.
Proof.
  induction s as [|c r IH]; simpl; auto.
  intros H. apply andb_true_iff in H as [Hc Hr].
  specialize (IH Hr).
  destruct (rstrip r) as [|x r'].
  - destruct (isspace c); simpl; auto. rewrite Hc. reflexivity.
  - simpl in *. rewrite Hc. exact IH.
Qed.

Lemma kept_split (sep : N) (s : list N) :
  forallb p s = true -> forallb (forallb p) (split sep s) = true.
Proof.
  induction s as [|c r IH]; simpl; auto.
  intros H. apply andb_true_iff in H as [Hc Hr].
  specialize (IH Hr).
  destruct (N.eqb c sep); simpl; auto.
  destruct (split sep r) as [|t ts]; simpl in *.
  - rewrite Hc. reflexivity.
  - rewrite Hc. exact IH.
Qed.

End Kept.

Lemma filter_kept (f : N -> bool) (s : list N) :
  forallb f (filter f s) = true.
Proof.
  induction s as [|c r IH]; simpl; auto.
  destruct (f c) eqn:E; simpl; auto. rewrite E. exact IH.
Qed.

Lemma forallb_and (p q : N -> bool) (s : list N) :
  forallb p s = true -> forallb q s = true ->
  forallb (fun c => p c && q c) s = true.
Proof.
  induction s as [|c r IH]; simpl; auto.
  intros Hp Hq.
  apply andb_true_iff in Hp as [Hp1 Hp2].
  apply andb_true_iff in Hq as [Hq1 Hq2].
  rewrite Hp1, Hq1. simpl. auto.
Qed.

Lemma lowered_settled (s : list N) :
  forallb (fun c => N.eqb (lower_char c) c
                    && (negb (N.leb c 255) || negb (isupper c)))
    (lower s) = true.
Proof.
  unfold lower. induction s as [|c r IH]; simpl; auto.
  rewrite lower_char_settled. exact IH.
Qed.

Lemma token_char_eq (c : N) :
  token_char c
  = negb (ispunct c)
    && (N.eqb (lower_char c) c
        && (negb (N.leb c 255) || negb (isupper c))).
Proof. unfold token_char. rewrite andb_assoc. reflexivity. Qed.

Lemma forallb_ext (p q : N -> bool) (s : list N) :
  (forall c, p c = q c) -> forallb p s = forallb q s.
Proof.
  intros H. induction s as [|c r IH]; simpl; auto.
  rewrite H, IH. reflexivity.
Qed.

(** Every character of the cleaned text is a [token_char]. *)
Lemma cleaned_token_chars (text : list N) :
  forallb token_char
    (strip (sub_ws (delete_punctuation (lower text)))) = true.
Proof.
  unfold strip, sub_ws.
  apply kept_rstrip, kept_lstrip, kept_sub_ws_from; [reflexivity |].
  rewrite (forallb_ext _ _ _ token_char_eq).
  apply (forallb_and (fun c => negb (ispunct c))).
  - apply filter_kept.
  - apply kept_filter, lowered_settled.
Qed.

End WideFacts.

(** C9, as amended.  No token that the text normalizer produces contains a
    punctuation character (a character of [string.punctuation]) or an
    uppercase letter that has a lowercase form: every character of a token
    is its own lowercase form, and is no uppercase letter at all when it is
    below U+0100.  Stated for the texts made of the code points U+0000 to
    U+00FF and U+1D400 to U+1D433. *)
Theorem C9_tokens_without_punctuation_or_cased_uppercase
    (text cleaned : list N) (tokens : list (list N)) :
  Wide.simple_preprocess text = Some (cleaned, tokens) ->
  forallb
    (forallb
       (fun c => negb (Wide.ispunct c)
                 && N.eqb (Wide.lower_char c) c
                 && (negb (N.leb c 255) || negb (Wide.isupper c))))
    tokens
  = true.
Proof.
  unfold Wide.simple_preprocess.
  destruct (forallb Wide.covered text); [| discriminate].
  intros H. injection H as <- <-.
  pose proof (WideFacts.cleaned_token_chars text) as Hc.
  destruct (Wide.strip _) as [|c r] eqn:E; [reflexivity |].
  apply (WideFacts.kept_split Wide.token_char Wide.space (c :: r) Hc).
Qed.

Lemma C9_tokens_without_punctuation_or_cased_uppercase_witness :
  Wide.simple_preprocess [72; 105; 33; 32; 0x1D400]%N
  = Some ([104; 105; 32; 0x1D400]%N, [[104; 105]; [0x1D400]]%N)
  /\ forallb
       (forallb
          (fun c => negb (Wide.ispunct c)
                    && N.eqb (Wide.lower_char c) c
                    && (negb (N.leb c 255) || negb (Wide.isupper c))))
       [[104; 105]; [0x1D400]]%N
     = true.
Proof.
  split; [reflexivity |].
  apply (C9_tokens_without_punctuation_or_cased_uppercase
           [72; 105; 33; 32; 0x1D400]%N [104; 105; 32; 0x1D400]%N
           [[104; 105]; [0x1D400]]%N eq_refl).
Defined.

(** C9, as stated, fails: U+1D400, the mathematical bold capital A, is an
    uppercase letter that [lower()] leaves as it is, so the text made of
    that one character has it as its one token. *)
Lemma C9_counterexample :
  Wide.simple_preprocess [0x1D400]%N
  = Some ([0x1D400]%N, [[0x1D400]]%N)
  /\ Wide.isupper 0x1D400 = true
  /\ Wide.lower_char 0x1D400 = 0x1D400%N.
Proof.
  repeat split.
Qed.
